(** * Sandbox runner (backend/open_webui/sandbox/runner.py)

    A shallow embedding of the runner: Python values and exceptions, the
    JSON encoder applied to the result envelope, the process state the
    runner acts on (resource limits, SIGALRM disposition, pending alarm,
    standard output), the capability set of [create_safe_globals],
    [execute_tool_code] and [main].

    Modelling conventions.
    - A Python [str] is a [string]: a sequence of code points below 256.
      Floating point values are outside the model.
    - A Python [dict] whose order is observable (the envelope, which is
      printed) is an association list; a [dict] used as a name space
      ([__builtins__], [module.__dict__]) is a [gmap].
    - Statements run in the monad [M]: a state transformer over the process
      state whose outcome is a value, an unwinding exception, or the death
      of the process by a signal.
    - Library calls whose code is not part of the repository
      ([json.loads], [base64.b64decode], [bytes.decode],
      [compile_restricted_exec], [resource.setrlimit], [repr] and the
      built-ins outside the fragment written out here) are fields of a
      record [Platform], a [Variable] of the sections below.  Each field
      has the type of the library function: [compile_restricted_exec]
      returns the named tuple [CompileResult] for every source, and the
      built-in [exec], which is written out, is applied to that tuple as
      line 88 does. *)

From stdpp Require Import gmap strings list pretty.

Set Warnings "-register-all".
Open Scope Z_scope.

(** ** Python values *)

Inductive pyval : Type :=
| PyNone
| PyBool (b : bool)
| PyInt (n : Z)
| PyStr (s : string)
| PyList (xs : list pyval)
| PyTuple (xs : list pyval)
| PyDict (items : list (pyval * pyval))
| PySet (xs : list pyval)
| PyObject (type_name : string).

(** [o.__class__.__name__] *)
Definition type_name (v : pyval) : string :=
  match v with
  | PyNone => "NoneType"
  | PyBool _ => "bool"
  | PyInt _ => "int"
  | PyStr _ => "str"
  | PyList _ => "list"
  | PyTuple _ => "tuple"
  | PyDict _ => "dict"
  | PySet _ => "set"
  | PyObject t => t
  end.

(** ** Exceptions

    [TimeoutError] is the class declared at the top of runner.py (a direct
    subclass of [Exception], shadowing the built-in of that name);
    [OtherError cls msg] is an instance of any other subclass of
    [Exception], with [str(e) = msg].  [SystemExit] is the only exception
    outside [Exception] that the runner meets: it is what [sys.exit]
    raises. *)

Inductive exception : Type :=
| TimeoutError (msg : string)
| MemoryError (msg : string)
| OtherError (cls : string) (msg : string).

Definition exc_str (e : exception) : string :=
  match e with
  | TimeoutError m => m
  | MemoryError m => m
  | OtherError _ m => m
  end.

Inductive unwinding : Type :=
| Exc (e : exception)
| SystemExit (code : Z).

Inductive result (A : Type) : Type :=
| Ok (a : A)
| Err (e : exception).
Arguments Ok {A} a.
Arguments Err {A} e.

Definition TypeError (msg : string) : exception := OtherError "TypeError" msg.
Definition KeyError (msg : string) : exception := OtherError "KeyError" msg.
Definition NameError (msg : string) : exception := OtherError "NameError" msg.
Definition ValueError (msg : string) : exception := OtherError "ValueError" msg.
Definition AttributeError (msg : string) : exception :=
  OtherError "AttributeError" msg.

(** ** json.dumps

    The encoder with its default options: [ensure_ascii=True], separators
    [", "] and [": "], [skipkeys=False]. *)

Definition dquote : string := String (Ascii.ascii_of_nat 34) EmptyString.
Definition backslash : string := String (Ascii.ascii_of_nat 92) EmptyString.

Definition hex_digit (n : N) : string :=
  String.substring (N.to_nat n) 1 "0123456789abcdef".

Definition json_escape_char (c : Ascii.ascii) : string :=
  let n := Ascii.N_of_ascii c in
  if N.eqb n 34 then backslash +:+ dquote
  else if N.eqb n 92 then backslash +:+ backslash
  else if N.eqb n 10 then backslash +:+ "n"
  else if N.eqb n 13 then backslash +:+ "r"
  else if N.eqb n 9 then backslash +:+ "t"
  else if N.eqb n 8 then backslash +:+ "b"
  else if N.eqb n 12 then backslash +:+ "f"
  else if (N.leb 32 n && N.leb n 126)%bool then String c EmptyString
  else backslash +:+ "u00" +:+ hex_digit (N.div n 16) +:+ hex_digit (N.modulo n 16).

Fixpoint json_escape (s : string) : string :=
  match s with
  | EmptyString => EmptyString
  | String c s' => json_escape_char c +:+ json_escape s'
  end.

Definition json_quote (s : string) : string :=
  dquote +:+ json_escape s +:+ dquote.

(** The decimal text of an integer.  The interpreter refuses to convert an
    integer of more than 4300 digits (CPython 3.11 and later). *)
Definition MAX_STR_DIGITS : Z := 4300.

Definition int_text (n : Z) : result string :=
  if 10 ^ MAX_STR_DIGITS <=? Z.abs n
  then Err (ValueError
              ("Exceeds the limit (4300 digits) for integer string conversion; "
                 +:+ "use sys.set_int_max_str_digits() to increase the limit"))
  else Ok (pretty n).

(** Coercion of a dictionary key to the text of a JSON member name. *)
Definition json_key (k : pyval) : result string :=
  match k with
  | PyStr s => Ok s
  | PyBool true => Ok "true"
  | PyBool false => Ok "false"
  | PyInt n => int_text n
  | PyNone => Ok "null"
  | _ => Err (TypeError ("keys must be str, int, float, bool or None, not "
                           +:+ type_name k))
  end.

Definition sep (first : bool) : string :=
  if first then EmptyString else ", ".

Fixpoint json_dumps (v : pyval) : result string :=
  match v with
  | PyNone => Ok "null"
  | PyBool true => Ok "true"
  | PyBool false => Ok "false"
  | PyInt n => int_text n
  | PyStr s => Ok (json_quote s)
  | PyList xs | PyTuple xs =>
      match
        (fix elems (l : list pyval) (first : bool) : result string :=
           match l with
           | [] => Ok "]"
           | x :: l' =>
               match json_dumps x with
               | Err e => Err e
               | Ok sx =>
                   match elems l' false with
                   | Err e => Err e
                   | Ok rest => Ok (sep first +:+ sx +:+ rest)
                   end
               end
           end) xs true
      with
      | Err e => Err e
      | Ok body => Ok ("[" +:+ body)
      end
  | PyDict items =>
      match
        (fix members (l : list (pyval * pyval)) (first : bool) : result string :=
           match l with
           | [] => Ok "}"
           | (k, x) :: l' =>
               match json_key k with
               | Err e => Err e
               | Ok sk =>
                   match json_dumps x with
                   | Err e => Err e
                   | Ok sx =>
                       match members l' false with
                       | Err e => Err e
                       | Ok rest =>
                           Ok (sep first +:+ json_quote sk +:+ ": " +:+ sx +:+ rest)
                       end
                   end
               end
           end) items true
      with
      | Err e => Err e
      | Ok body => Ok ("{" +:+ body)
      end
  | PySet _ | PyObject _ =>
      Err (TypeError ("Object of type " +:+ type_name v
                        +:+ " is not JSON serializable"))
  end.

(** Reading a dictionary with string keys, as [d.get(k)] does. *)
Fixpoint assoc_get (k : string) (items : list (pyval * pyval)) : option pyval :=
  match items with
  | [] => None
  | (PyStr k', v) :: items' => if String.eqb k k' then Some v else assoc_get k items'
  | _ :: items' => assoc_get k items'
  end.

Definition dict_get (k : string) (d : pyval) : option pyval :=
  match d with
  | PyDict items => assoc_get k items
  | _ => None
  end.

(** ** The process the runner acts on *)

Inductive rlimit : Type := RLIMIT_AS | RLIMIT_CPU.

(** Disposition of SIGALRM: the default one terminates the process. *)
Inductive sighandler : Type := SIG_DFL | Handler_timeout_handler.

(** Who called [print]: the runner itself (lines 128 and 132) or code that
    was given the capability set. *)
Inductive writer : Type := Runner | Submitted.

(** What the process did, most recent first.  [EvCompile] is the call of
    the restricted compiler (line 79), [EvExec] the call of [exec]
    (line 88), [EvInstantiate] the call of [Tools] (line 93) and [EvRun]
    the call of [run] (line 95). *)
Inductive event : Type :=
| EvSetrlimit (r : rlimit) (soft hard : Z)
| EvSignal (h : sighandler)
| EvAlarm (seconds : Z)
| EvCompile (source : string)
| EvExec
| EvInstantiate
| EvRun
| EvWrite (who : writer) (text : string).

Record process : Type := mkProcess {
  stdin : string;
  argv : list string;
  environ : list (string * string);
  rlimits : rlimit -> option (Z * Z);
  on_sigalrm : sighandler;
  alarm : Z;
  stdout : string;
  log : list event
}.

Definition set_rlimit (r : rlimit) (v : Z * Z) (w : process) : process :=
  mkProcess (stdin w) (argv w) (environ w)
    (fun r' => match r, r' with
               | RLIMIT_AS, RLIMIT_AS | RLIMIT_CPU, RLIMIT_CPU => Some v
               | _, _ => rlimits w r'
               end)
    (on_sigalrm w) (alarm w) (stdout w) (log w).

Definition set_on_sigalrm (h : sighandler) (w : process) : process :=
  mkProcess (stdin w) (argv w) (environ w) (rlimits w) h (alarm w) (stdout w) (log w).

Definition set_alarm (n : Z) (w : process) : process :=
  mkProcess (stdin w) (argv w) (environ w) (rlimits w) (on_sigalrm w) n (stdout w) (log w).

Definition add_stdout (s : string) (w : process) : process :=
  mkProcess (stdin w) (argv w) (environ w) (rlimits w) (on_sigalrm w) (alarm w)
    (stdout w +:+ s) (log w).

Definition add_log (e : event) (w : process) : process :=
  mkProcess (stdin w) (argv w) (environ w) (rlimits w) (on_sigalrm w) (alarm w)
    (stdout w) (e :: log w).

(** ** The monad of statements *)

Inductive outcome (A : Type) : Type :=
| Returned (a : A)
| Raised (u : unwinding)
| Killed.
Arguments Returned {A} a.
Arguments Raised {A} u.
Arguments Killed {A}.

Definition M (A : Type) : Type := process -> outcome A * process.

Definition ret {A} (a : A) : M A := fun w => (Returned a, w).

Definition raise {A} (e : exception) : M A := fun w => (Raised (Exc e), w).

Definition bind {A B} (m : M A) (k : A -> M B) : M B :=
  fun w =>
    match m w with
    | (Returned a, w') => k a w'
    | (Raised u, w') => (Raised u, w')
    | (Killed, w') => (Killed, w')
    end.

Notation "x <- c1 ;; c2" := (bind c1 (fun x => c2))
  (at level 100, c1 at next level, right associativity).
Notation "c1 ;; c2" := (bind c1 (fun _ => c2))
  (at level 100, right associativity).

Definition lift {A} (r : result A) : M A :=
  match r with
  | Ok a => ret a
  | Err e => raise e
  end.

Definition emit (e : event) : M unit := fun w => (Returned tt, add_log e w).

(** [try: body except Exception as e: handler(e)].  Only instances of
    [Exception] are caught; [SystemExit] and the death of the process go
    through. *)
Definition try_except {A} (body : M A) (handler : exception -> M A) : M A :=
  fun w =>
    match body w with
    | (Raised (Exc e), w') => handler e w'
    | r => r
    end.

(** [try: body finally: cleanup].  The clean-up runs whether [body]
    returns or unwinds; when it completes, the outcome of [body] stands. *)
Definition try_finally {A} (body : M A) (cleanup : M unit) : M A :=
  fun w =>
    match body w with
    | (Killed, w') => (Killed, w')
    | (o, w') =>
        match cleanup w' with
        | (Returned _, w'') => (o, w'')
        | (Raised u, w'') => (Raised u, w'')
        | (Killed, w'') => (Killed, w'')
        end
    end.

(** ** Signals and the standard streams *)

(** [signal.signal(signal.SIGALRM, handler)] *)
Definition signal_signal (h : sighandler) : M unit :=
  fun w => (Returned tt, add_log (EvSignal h) (set_on_sigalrm h w)).

(** [signal.alarm(seconds)]: replaces any pending alarm; [0] cancels it. *)
Definition signal_alarm (seconds : Z) : M unit :=
  fun w => (Returned tt, add_log (EvAlarm seconds) (set_alarm seconds w)).

(** [def timeout_handler(signum, frame): raise TimeoutError("Execution timeout")] *)
Definition timeout_handler : M unit :=
  raise (TimeoutError "Execution timeout").

(** The wall-clock deadline passes at this point of the execution: when an
    alarm is pending it is consumed and SIGALRM is delivered according to
    its disposition; when none is pending nothing happens. *)
Definition deliver_sigalrm : M unit :=
  fun w =>
    if 0 <? alarm w then
      match on_sigalrm w with
      | SIG_DFL => (Killed, set_alarm 0 w)
      | Handler_timeout_handler => timeout_handler (set_alarm 0 w)
      end
    else (Returned tt, w).

Definition newline : string := String (Ascii.ascii_of_nat 10) EmptyString.

(** [sys.stdout.write(text)] *)
Definition write_stdout (who : writer) (text : string) : M unit :=
  fun w => (Returned tt, add_log (EvWrite who text) (add_stdout text w)).

(** [sys.exit(code)] *)
Definition sys_exit {A} (code : Z) : M A := fun w => (Raised (SystemExit code), w).

(** ** Code that uses the capability set

    Code that runs with a capability set as its [__builtins__] is, as far
    as the set is concerned, a tree: it finishes with a value, unwinds with
    an exception, or calls a name and goes on with the answer. *)

Inductive builtin : Type :=
| B_len | B_str | B_int | B_float | B_bool | B_list | B_dict | B_tuple
| B_set | B_range | B_enumerate | B_zip | B_map | B_filter | B_sorted
| B_sum | B_min | B_max | B_abs | B_round | B_print.

(** [f.__name__] of the interpreter's built-in [f] *)
Definition builtin_name (b : builtin) : string :=
  match b with
  | B_len => "len" | B_str => "str" | B_int => "int" | B_float => "float"
  | B_bool => "bool" | B_list => "list" | B_dict => "dict"
  | B_tuple => "tuple" | B_set => "set" | B_range => "range"
  | B_enumerate => "enumerate" | B_zip => "zip" | B_map => "map"
  | B_filter => "filter" | B_sorted => "sorted" | B_sum => "sum"
  | B_min => "min" | B_max => "max" | B_abs => "abs" | B_round => "round"
  | B_print => "print"
  end.

Inductive prog (A : Type) : Type :=
| Ret (a : A)
| Raise (e : exception)
| Call (name : string) (args : list pyval) (k : pyval -> prog A).
Arguments Ret {A} a.
Arguments Raise {A} e.
Arguments Call {A} name args k.

(** A callable attribute, seen from a call with keyword arguments only: its
    qualified name and what the call does with the arguments it is given
    (the binding of the arguments to the parameters included). *)
Record pyfunc : Type := mkFunc {
  f_name : string;
  f_call : list (string * pyval) -> prog pyval
}.

Inductive attr : Type :=
| AttrFunc (f : pyfunc)
| AttrValue (v : pyval).

(** The object [module.Tools()] returns, through the attributes [hasattr]
    and [getattr] find on it. *)
Record instance : Type := mkInstance {
  inst_attrs : gmap string attr
}.

(** The objects bound in the module name space. *)
Inductive obj : Type :=
| OVal (v : pyval)
| OBuiltins (bs : gmap string builtin)
| OCallable (call : prog instance).

(** ** create_safe_globals *)

Definition safe_builtins : list (string * builtin) :=
  [ ("len", B_len); ("str", B_str); ("int", B_int); ("float", B_float);
    ("bool", B_bool); ("list", B_list); ("dict", B_dict);
    ("tuple", B_tuple); ("set", B_set); ("range", B_range);
    ("enumerate", B_enumerate); ("zip", B_zip); ("map", B_map);
    ("filter", B_filter); ("sorted", B_sorted); ("sum", B_sum);
    ("min", B_max); ("max", B_max); ("abs", B_abs); ("round", B_round);
    ("print", B_print) ].

Definition create_safe_globals : gmap string obj :=
  {[ "__builtins__" := OBuiltins (list_to_map safe_builtins) ]}.

(** ** Library calls *)

(** A code object, as far as the runner can tell one from another. *)
Record code_object : Type := mkCode {
  co_filename : string
}.

(** [RestrictedPython.compiler.CompileResult]: the named tuple
    [(code, errors, warnings, used_names)] that [compile_restricted_exec]
    returns.  [code] is [None] when the source was rejected, and [errors]
    then says why. *)
Record CompileResult : Type := mkCompileResult {
  code : option code_object;
  errors : list string;
  warnings : list string;
  used_names : list string
}.

Record Platform : Type := mkPlatform {
  json_loads : string -> result pyval;
  b64decode : pyval -> result (list Byte.byte);
  utf8_decode : list Byte.byte -> result string;
  compile_restricted_exec : string -> result CompileResult;
  (** whether the compilation of this source is still going on when the
      wall-clock deadline of a pending alarm passes *)
  compile_outlasts_alarm : string -> bool;
  (** [None]: the limit was set *)
  os_setrlimit : (rlimit -> option (Z * Z)) -> rlimit -> Z * Z -> option exception;
  py_repr : pyval -> string;
  builtin_impl : builtin -> list pyval -> result pyval
}.

(** ** The built-ins written out: [print], [max], [min], [len] *)

Fixpoint ints_of (xs : list pyval) : option (list Z) :=
  match xs with
  | [] => Some []
  | PyInt n :: xs' =>
      match ints_of xs' with
      | Some ns => Some (n :: ns)
      | None => None
      end
  | _ => None
  end.

(** [max(iterable)] and [max(a, b, ...)] range over the same elements. *)
Definition operands (args : list pyval) : option (list pyval) :=
  match args with
  | [PyList xs] | [PyTuple xs] => Some xs
  | _ :: _ :: _ => Some args
  | _ => None
  end.

Definition int_operands (args : list pyval) : option (list Z) :=
  match operands args with
  | Some xs => ints_of xs
  | None => None
  end.

Fixpoint join (sep : string) (parts : list string) : string :=
  match parts with
  | [] => EmptyString
  | [s] => s
  | s :: rest => s +:+ sep +:+ join sep rest
  end.

Section Runner.

Variable P : Platform.

Definition py_max (args : list pyval) : result pyval :=
  match int_operands args with
  | Some (n :: ns) => Ok (PyInt (fold_left Z.max ns n))
  | _ => builtin_impl P B_max args
  end.

Definition py_min (args : list pyval) : result pyval :=
  match int_operands args with
  | Some (n :: ns) => Ok (PyInt (fold_left Z.min ns n))
  | _ => builtin_impl P B_min args
  end.

Definition py_len (args : list pyval) : result pyval :=
  match args with
  | [PyList xs] | [PyTuple xs] => Ok (PyInt (Z.of_nat (length xs)))
  | [PyStr s] => Ok (PyInt (Z.of_nat (String.length s)))
  | [PyDict items] => Ok (PyInt (Z.of_nat (length items)))
  | _ => builtin_impl P B_len args
  end.

(** [str(v)]: a string is its own text *)
Definition py_str (v : pyval) : string :=
  match v with
  | PyStr s => s
  | _ => py_repr P v
  end.

(** [print] applied to [args]: the texts of the arguments separated by a blank,
    then a newline, on the standard output of the process. *)
Definition py_print (who : writer) (args : list pyval) : M pyval :=
  write_stdout who (join " " (map py_str args) +:+ newline) ;;
  ret PyNone.

Definition call_builtin (b : builtin) (args : list pyval) : M pyval :=
  match b with
  | B_print => py_print Submitted args
  | B_max => lift (py_max args)
  | B_min => lift (py_min args)
  | B_len => lift (py_len args)
  | _ => lift (builtin_impl P b args)
  end.

(** Running code against the capability set [bs] it was given as
    [__builtins__]: a name is looked up in [bs] when it is called. *)
Fixpoint run_prog {A} (bs : gmap string builtin) (p : prog A) : M A :=
  match p with
  | Ret a => ret a
  | Raise e => raise e
  | Call name args k =>
      match bs !! name with
      | None => raise (NameError ("name '" +:+ name +:+ "' is not defined"))
      | Some b =>
          fun w =>
            match call_builtin b args w with
            | (Returned v, w') => run_prog bs (k v) w'
            | (Raised u, w') => (Raised u, w')
            | (Killed, w') => (Killed, w')
            end
      end
  end.

(** ** Calling with unpacked keyword arguments *)

Fixpoint keywords (items : list (pyval * pyval)) : option (list (string * pyval)) :=
  match items with
  | [] => Some []
  | (PyStr k, v) :: items' =>
      match keywords items' with
      | Some kw => Some ((k, v) :: kw)
      | None => None
      end
  | _ => None
  end.

(** The mapping to unpack is looked at first: it must be a mapping and
    its keys strings. *)
Definition unpack (callee : string) (params : pyval) : result (list (string * pyval)) :=
  match params with
  | PyDict items =>
      match keywords items with
      | Some kw => Ok kw
      | None => Err (TypeError "keywords must be strings")
      end
  | _ => Err (TypeError (callee +:+ "() argument after ** must be a mapping, not "
                           +:+ type_name params))
  end.

(** The call of an attribute [callee] of the instance with the keyword
    arguments unpacked from [params] *)
Definition call_kwargs (bs : gmap string builtin) (callee : attr) (params : pyval)
  : M pyval :=
  match callee with
  | AttrFunc f =>
      kw <- lift (unpack (f_name f) params) ;;
      run_prog bs (f_call f kw)
  | AttrValue v =>
      lift (unpack (type_name v) params) ;;
      raise (TypeError ("'" +:+ type_name v +:+ "' object is not callable"))
  end.

(** [callee()] for an object of the module name space *)
Definition call_object (bs : gmap string builtin) (callee : obj) : M instance :=
  match callee with
  | OCallable c => run_prog bs c
  | OVal v => raise (TypeError ("'" +:+ type_name v +:+ "' object is not callable"))
  | OBuiltins _ => raise (TypeError "'dict' object is not callable")
  end.

(** ** setup_resource_limits *)

(** [resource.setrlimit(r, (soft, hard))] *)
Definition setrlimit (r : rlimit) (v : Z * Z) : M unit :=
  fun w =>
    match os_setrlimit P (rlimits w) r v with
    | None => (Returned tt, add_log (EvSetrlimit r (fst v) (snd v)) (set_rlimit r v w))
    | Some e => (Raised (Exc e), add_log (EvSetrlimit r (fst v) (snd v)) w)
    end.

Definition setup_resource_limits : M unit :=
  setrlimit RLIMIT_AS (256 * 1024 * 1024, 256 * 1024 * 1024) ;;
  setrlimit RLIMIT_CPU (60, 60).

(** ** execute_tool_code *)

Definition envelope_result (result : pyval) : pyval :=
  PyDict [(PyStr "ok", PyBool true); (PyStr "result", result)].

Definition envelope_error (message : string) : pyval :=
  PyDict [(PyStr "ok", PyBool false); (PyStr "error", PyStr message)].

(** [types.ModuleType("sandbox_module").__dict__] *)
Definition new_module_dict : gmap string obj :=
  list_to_map
    [ ("__name__", OVal (PyStr "sandbox_module")); ("__doc__", OVal PyNone);
      ("__package__", OVal PyNone); ("__loader__", OVal PyNone);
      ("__spec__", OVal PyNone) ].

Definition builtins_of (globals : gmap string obj) : gmap string builtin :=
  match globals !! "__builtins__" with
  | Some (OBuiltins bs) => bs
  | _ => ∅
  end.

(** Line 79, [compile_restricted_exec(code_content)].  The call lasts:
    when the wall-clock deadline of the pending alarm passes before the
    compiler answers, SIGALRM is delivered inside the call. *)
Definition call_compile_restricted_exec (source : string) : M CompileResult :=
  emit (EvCompile source) ;;
  (if compile_outlasts_alarm P source then deliver_sigalrm else ret tt) ;;
  lift (compile_restricted_exec P source).

(** Line 80, [compiled_code is None]: a named tuple is an object of its
    own, whatever it holds. *)
Definition is_None (compiled_code : CompileResult) : bool := false.

(** Line 88, [exec(compiled_code, module.__dict__)].  The built-in runs
    a string, bytes or a code object and raises [TypeError] when its first
    argument is of another type.  Line 88 hands it the named tuple, not
    the [code] it holds. *)
Definition exec (object : CompileResult) (globals : gmap string obj)
  : M (gmap string obj) :=
  emit EvExec ;;
  raise (TypeError "exec() arg 1 must be a string, bytes or code object").

(** Lines 91-99: the look-up of [Tools] and of its [run]. *)
Definition entry_point (module : gmap string obj) (params : pyval) : M pyval :=
  match module !! "Tools" with
  | Some tools =>
      emit EvInstantiate ;;
      tool_instance <- call_object (builtins_of module) tools ;;
      match inst_attrs tool_instance !! "run" with
      | Some run =>
          emit EvRun ;;
          call_kwargs (builtins_of module) run params
      | None => ret (PyStr "Tool instance created")
      end
  | None => ret (PyStr "Code executed successfully")
  end.

(** Lines 75-102: from the capability set to the envelope of a
    successful run. *)
Definition compile_and_run (code_content : string) (params : pyval) : M pyval :=
  let safe_globals := create_safe_globals in
  compiled_code <- call_compile_restricted_exec code_content ;;
  if is_None compiled_code
  then ret (envelope_error "Code compilation failed (restricted)")
  else
    let module := safe_globals ∪ new_module_dict in
    module <- exec compiled_code module ;;
    result <- entry_point module params ;;
    signal_alarm 0 ;;
    ret (envelope_result result).

(** Lines 68-102: the body of the [try] statement. *)
Definition try_body (code_content : string) (params : pyval) : M pyval :=
  setup_resource_limits ;;
  signal_signal Handler_timeout_handler ;;
  signal_alarm 120 ;;
  compile_and_run code_content params.

(** Lines 104-109: the [except] clauses, in their order, and the
    envelope each one returns. *)
Definition handled (e : exception) : pyval :=
  match e with
  | TimeoutError _ => envelope_error "Execution timeout"
  | MemoryError _ => envelope_error "Memory limit exceeded"
  | _ => envelope_error ("Execution error: " +:+ exc_str e)
  end.

Definition handlers (e : exception) : M pyval := ret (handled e).

Definition execute_tool_code (code_content : string) (params : pyval) : M pyval :=
  let params := match params with PyNone => PyDict [] | _ => params end in
  try_finally
    (try_except (try_body code_content params) handlers)
    (signal_alarm 0).

(** ** main *)

(** [v[key]] for a string [key] *)
Definition subscript (v : pyval) (key : string) : result pyval :=
  match v with
  | PyDict items =>
      match assoc_get key items with
      | Some x => Ok x
      | None => Err (KeyError ("'" +:+ key +:+ "'"))
      end
  | PyList _ => Err (TypeError "list indices must be integers or slices, not str")
  | PyTuple _ => Err (TypeError "tuple indices must be integers or slices, not str")
  | PyStr _ => Err (TypeError "string indices must be integers, not 'str'")
  | _ => Err (TypeError ("'" +:+ type_name v +:+ "' object is not subscriptable"))
  end.

(** [v.get(key, default)] *)
Definition get_default (v : pyval) (key : string) (default : pyval) : result pyval :=
  match v with
  | PyDict items =>
      match assoc_get key items with
      | Some x => Ok x
      | None => Ok default
      end
  | _ => Err (AttributeError ("'" +:+ type_name v +:+ "' object has no attribute 'get'"))
  end.

Definition sys_stdin_read : M string := fun w => (Returned (stdin w), w).

(** Lines 118-122: what the runner takes from its input. *)
Definition read_request : M (string * pyval) :=
  text <- sys_stdin_read ;;
  input_data <- lift (json_loads P text) ;;
  code_field <- lift (subscript input_data "code") ;;
  raw <- lift (b64decode P code_field) ;;
  code_content <- lift (utf8_decode P raw) ;;
  params <- lift (get_default input_data "params" (PyDict [])) ;;
  ret (code_content, params).

Definition main : M unit :=
  try_except
    (request <- read_request ;;
     result <- execute_tool_code (fst request) (snd request) ;;
     text <- lift (json_dumps result) ;;
     py_print Runner [PyStr text] ;;
     ret tt)
    (fun e =>
       let error_result := envelope_error ("Runner error: " +:+ exc_str e) in
       text <- lift (json_dumps error_result) ;;
       py_print Runner [PyStr text] ;;
       sys_exit 1).

(** [if __name__ == "__main__": main()], and how the interpreter ends. *)
Inductive exit_status : Type :=
| Exited (code : Z)
| Signaled.

Definition run_process (w : process) : exit_status * process :=
  match main w with
  | (Returned _, w') => (Exited 0, w')
  | (Raised (SystemExit c), w') => (Exited c, w')
  | (Raised (Exc _), w') => (Exited 1, w')
  | (Killed, w') => (Signaled, w')
  end.

End Runner.

(** ** An environment for the examples

    A submission is given by its source text and by the base64 text of that
    source as it travels in the request.  [platform] answers as the
    libraries do on the requests, blobs and sources listed here; what it
    answers elsewhere stands for no library and no example relies on it. *)

Module Examples.

Fixpoint text (ls : list string) : string :=
  match ls with
  | [] => EmptyString
  | l :: ls' => l +:+ newline +:+ text ls'
  end.

Record submission : Type := mkSubmission {
  sub_source : string;
  sub_blob : string
}.

(** The submission of the test [test_safe_code_works] and of the first
    scenario of the specification *)
Definition hello : submission :=
  mkSubmission
    (text [ "class Tools:"; "    def run(self):";
            "        return " +:+ dquote +:+ "Hello, safe world!" +:+ dquote ])
    "Y2xhc3MgVG9vbHM6CiAgICBkZWYgcnVuKHNlbGYpOgogICAgICAgIHJldHVybiAiSGVsbG8sIHNhZmUgd29ybGQhIgo=".

(** A submission without [Tools] *)
Definition no_tools : submission :=
  mkSubmission
    (text [ "x = 1" ])
    "eCA9IDEK".

Definition submissions : list submission := [hello; no_tools].

(** The request envelope [{"code": blob}], or [{"code": blob, "params": p}]
    with the text [p] of a JSON value. *)
Definition request_text (blob : string) (params : option string) : string :=
  "{" +:+ json_quote "code" +:+ ": " +:+ json_quote blob
  +:+ match params with
      | None => EmptyString
      | Some p => ", " +:+ json_quote "params" +:+ ": " +:+ p
      end
  +:+ "}".

Definition request_value (blob : string) (params : option pyval) : pyval :=
  PyDict ((PyStr "code", PyStr blob)
            :: match params with
               | None => []
               | Some p => [(PyStr "params", p)]
               end).

(** The texts of the [params] member used in the examples *)
Definition params_texts : list (option string * option pyval) :=
  [ (None, None);
    (Some "null", Some PyNone);
    (Some "{}", Some (PyDict []));
    (Some "[1, 2]", Some (PyList [PyInt 1; PyInt 2]));
    (Some ("{" +:+ json_quote "x" +:+ ": 5}"), Some (PyDict [(PyStr "x", PyInt 5)])) ].

(** The requests of the submissions, and two requests without a [code]
    member. *)
Definition known_requests : list (string * pyval) :=
  (sub ← submissions;
   pt ← params_texts;
   [(request_text (sub_blob sub) (fst pt), request_value (sub_blob sub) (snd pt))])
  ++ [ ("{}", PyDict []); ("[]", PyList []) ].

Fixpoint lookup_text {A} (k : string) (l : list (string * A)) : option A :=
  match l with
  | [] => None
  | (k', a) :: l' => if String.eqb k k' then Some a else lookup_text k l'
  end.

(** What the restricted compiler returns for the sources above: a code
    object, no error, no warning, no name read. *)
Definition accepted : CompileResult :=
  mkCompileResult (Some (mkCode "<string>")) [] [] [].

(** [limiter] says which limit the platform refuses and how; [slow] says
    whether the compilation outlasts the alarm. *)
Definition platform (limiter : rlimit -> option exception) (slow : bool) : Platform :=
  mkPlatform
    (fun s =>
       match lookup_text s known_requests with
       | Some v => Ok v
       | None => Err (OtherError "JSONDecodeError"
                        "Expecting value: line 1 column 1 (char 0)")
       end)
    (fun v =>
       match v with
       | PyStr blob =>
           match lookup_text blob
                   (map (fun sub => (sub_blob sub, sub_source sub)) submissions) with
           | Some src => Ok (String.list_byte_of_string src)
           | None => Err (OtherError "Error" "Incorrect padding")
           end
       | _ => Err (TypeError
                     ("argument should be a bytes-like object or ASCII string, not '"
                        +:+ type_name v +:+ "'"))
       end)
    (fun bytes => Ok (String.string_of_list_byte bytes))
    (fun src => Ok accepted)
    (fun src => slow)
    (fun _ r _ => limiter r)
    (fun v => "<" +:+ type_name v +:+ ">")
    (fun b args => Err (TypeError (builtin_name b +:+ "() argument not supported"))).

Definition example_platform (limiter : rlimit -> option exception) : Platform :=
  platform limiter false.

Definition limits_accepted : rlimit -> option exception := fun _ => None.

Definition limits_refused : rlimit -> option exception :=
  fun _ => Some (ValueError "current limit exceeds maximum limit").

(** The memory ceiling is accepted and the CPU ceiling is not. *)
Definition cpu_refused (r : rlimit) : option exception :=
  match r with
  | RLIMIT_AS => None
  | RLIMIT_CPU => Some (ValueError "not allowed to raise maximum limit")
  end.

(** The limits are accepted and the compilation outlasts the alarm. *)
Definition slow_platform : Platform := platform limits_accepted true.

(** A process as the host starts it: nothing written, no alarm pending,
    SIGALRM at its default disposition. *)
Definition fresh (input : string) : process :=
  mkProcess input ["runner.py"] [] (fun _ => None) SIG_DFL 0 EmptyString [].

End Examples.

(** * Vocabulary of the properties *)

Definition armed (w : process) : Prop :=
  on_sigalrm w = Handler_timeout_handler /\ 0 < alarm w.

(** Every limit set is one of the two constants, every alarm is the
    120-second one or the cancelling one. *)
Definition fixed_ceilings (e : event) : Prop :=
  match e with
  | EvSetrlimit RLIMIT_AS soft hard => soft = 268435456 /\ hard = 268435456
  | EvSetrlimit RLIMIT_CPU soft hard => soft = 60 /\ hard = 60
  | EvAlarm n => n = 120 \/ n = 0
  | _ => True
  end.

(** Events in which the submitted code has no part *)
Definition no_submitted_code (e : event) : Prop :=
  match e with
  | EvExec | EvInstantiate | EvRun | EvWrite Submitted _ => False
  | _ => True
  end.

Definition is_setrlimit (e : event) : Prop :=
  match e with
  | EvSetrlimit _ _ _ => True
  | _ => False
  end.

(** Events that write nothing on the standard output *)
Definition silent (e : event) : Prop :=
  match e with
  | EvWrite _ _ => False
  | _ => True
  end.

(** The envelope invariant of the data model: [ok] is a boolean; with
    [ok = true] there is a [result] and no [error]; with [ok = false] there
    is an [error], a string, and no [result]; there is no third field. *)
Definition well_formed_envelope (env : pyval) : bool :=
  match env with
  | PyDict [_; _] =>
      match dict_get "ok" env, dict_get "result" env, dict_get "error" env with
      | Some (PyBool true), Some _, None => true
      | Some (PyBool false), None, Some (PyStr _) => true
      | _, _, _ => false
      end
  | _ => false
  end.

(** The pure reading of lines 118-122: from the text on the standard input
    to the source and the parameters. *)
Definition decode_request (P : Platform) (input : string) : result (string * pyval) :=
  match json_loads P input with
  | Err e => Err e
  | Ok input_data =>
      match subscript input_data "code" with
      | Err e => Err e
      | Ok code_field =>
          match b64decode P code_field with
          | Err e => Err e
          | Ok raw =>
              match utf8_decode P raw with
              | Err e => Err e
              | Ok code_content =>
                  match get_default input_data "params" (PyDict []) with
                  | Err e => Err e
                  | Ok params => Ok (code_content, params)
                  end
              end
          end
      end
  end.

(** The text of an error envelope, as [json.dumps] writes it. *)
Definition error_text (message : string) : string :=
  "{" +:+ json_quote "ok" +:+ ": false, " +:+ json_quote "error" +:+ ": "
  +:+ json_quote message +:+ "}".

(** One line printed by the runner. *)
Definition print_line (text : string) (w : process) : process :=
  add_log (EvWrite Runner (text +:+ newline)) (add_stdout (text +:+ newline) w).

(** The cancelling of the alarm in the [finally] clause. *)
Definition disarm (w : process) : process :=
  add_log (EvAlarm 0) (set_alarm 0 w).

(** The memory ceiling of line 27, in bytes. *)
Definition MEMORY_LIMIT : Z := 256 * 1024 * 1024.

(** The state of the process once line 27, lines 27-29 and lines 69-73 went
    through. *)
Definition limited_as (w : process) : process :=
  add_log (EvSetrlimit RLIMIT_AS MEMORY_LIMIT MEMORY_LIMIT)
    (set_rlimit RLIMIT_AS (MEMORY_LIMIT, MEMORY_LIMIT) w).

Definition limited (w : process) : process :=
  add_log (EvSetrlimit RLIMIT_CPU 60 60) (set_rlimit RLIMIT_CPU (60, 60) (limited_as w)).

Definition armed_state (w : process) : process :=
  add_log (EvAlarm 120)
    (set_alarm 120
       (add_log (EvSignal Handler_timeout_handler)
          (set_on_sigalrm Handler_timeout_handler (limited w)))).

(** The state in which the restricted compiler works (line 79) and the
    state in which [exec] is called (line 88). *)
Definition compile_state (src : string) (w : process) : process :=
  add_log (EvCompile src) (armed_state w).

Definition exec_state (src : string) (w : process) : process :=
  add_log EvExec (compile_state src w).

(** The refusal of a limit, if any, and the state it leaves. *)
Definition limiter_failure (P : Platform) (w : process) : option (exception * process) :=
  match os_setrlimit P (rlimits w) RLIMIT_AS (MEMORY_LIMIT, MEMORY_LIMIT) with
  | Some e => Some (e, add_log (EvSetrlimit RLIMIT_AS MEMORY_LIMIT MEMORY_LIMIT) w)
  | None =>
      match os_setrlimit P (rlimits (limited_as w)) RLIMIT_CPU (60, 60) with
      | Some e => Some (e, add_log (EvSetrlimit RLIMIT_CPU 60 60) (limited_as w))
      | None => None
      end
  end.

(** [params] as [execute_tool_code] uses it: [None] stands for no
    parameters. *)
Definition effective_params (params : pyval) : pyval :=
  match params with
  | PyNone => PyDict []
  | _ => params
  end.

(** The log of lines 69-73, most recent first. *)
Definition prelude_log : list event :=
  [ EvAlarm 120; EvSignal Handler_timeout_handler;
    EvSetrlimit RLIMIT_CPU 60 60;
    EvSetrlimit RLIMIT_AS 268435456 268435456 ].

(** The text of the [TypeError] of line 88 *)
Definition exec_message : string :=
  "exec() arg 1 must be a string, bytes or code object".

(** What stops [execute_tool_code] and where: the refusal of a limit, the
    deadline that passes while the compiler works, an exception of the
    compiler, or the [TypeError] of [exec]. *)
Definition stop (P : Platform) (src : string) (w : process) : exception * process :=
  match limiter_failure P w with
  | Some (e, w0) => (e, w0)
  | None =>
      if compile_outlasts_alarm P src
      then (TimeoutError "Execution timeout", set_alarm 0 (compile_state src w))
      else
        match compile_restricted_exec P src with
        | Err e => (e, compile_state src w)
        | Ok _ => (TypeError exec_message, exec_state src w)
        end
  end.

(** [needle in haystack] *)
Fixpoint contains (needle haystack : string) : bool :=
  if String.prefix needle haystack then true
  else match haystack with
       | EmptyString => false
       | String _ rest => contains needle rest
       end.

(** Printable ASCII: the characters [json.dumps] writes with its default
    options. *)
Definition printable (c : Ascii.ascii) : bool :=
  (N.leb 32 (Ascii.N_of_ascii c) && N.leb (Ascii.N_of_ascii c) 126)%bool.

Fixpoint all_printable (s : string) : bool :=
  match s with
  | EmptyString => true
  | String c s' => (printable c && all_printable s')%bool
  end.

(** The elements of a list and the members of a dictionary as [json.dumps]
    writes them, after the opening bracket: the two inner loops of
    [json_dumps], by name. *)
Fixpoint dump_elems (l : list pyval) (first : bool) : result string :=
  match l with
  | [] => Ok "]"
  | x :: l' =>
      match json_dumps x with
      | Err e => Err e
      | Ok sx =>
          match dump_elems l' false with
          | Err e => Err e
          | Ok rest => Ok (sep first +:+ sx +:+ rest)
          end
      end
  end.

Fixpoint dump_members (l : list (pyval * pyval)) (first : bool) : result string :=
  match l with
  | [] => Ok "}"
  | (k, x) :: l' =>
      match json_key k with
      | Err e => Err e
      | Ok sk =>
          match json_dumps x with
          | Err e => Err e
          | Ok sx =>
              match dump_members l' false with
              | Err e => Err e
              | Ok rest =>
                  Ok (sep first +:+ json_quote sk +:+ ": " +:+ sx +:+ rest)
              end
          end
      end
  end.

(** The texts of the error field when the process ends with status 0. *)
Definition execution_error_text (msg : string) : Prop :=
  msg = "Execution timeout" \/
  msg = "Memory limit exceeded" \/
  msg = "Code compilation failed (restricted)" \/
  exists m, msg = "Execution error: " +:+ m.

Ltac invert H := inversion H; subst; clear H.

(** Closing a property of one event, or of a list of given events. *)
Ltac event_ok :=
  simpl;
  first [ exact I | reflexivity | split; reflexivity
        | left; reflexivity | right; reflexivity ].

Ltac events_ok :=
  repeat first [ apply List.Forall_nil | apply List.Forall_cons; [event_ok|] ].

(** Closing a goal where an event of a given list is said to be one in
    which the submitted code has a part. *)
Ltac no_part_in He Hns :=
  simpl in He;
  repeat (destruct He as [He|He]; [subst; try (exfalso; apply Hns; exact I)|]);
  try destruct He.

(** * Lemmas *)

(** ** Strings *)

Lemma string_app_cons a s t : String a s +:+ t = String a (s +:+ t).
Proof. reflexivity. Qed.

Lemma string_app_nil_r s : s +:+ EmptyString = s.
Proof.
  induction s as [|a s IH]; [reflexivity|].
  rewrite string_app_cons, IH. reflexivity.
Qed.

Lemma string_app_assoc s t u : (s +:+ t) +:+ u = s +:+ (t +:+ u).
Proof.
  induction s as [|a s IH]; [reflexivity|].
  rewrite !string_app_cons, IH. reflexivity.
Qed.

(** ** The monad *)

Lemma bind_emit {B} e (k : unit -> M B) w : bind (emit e) k w = k tt (add_log e w).
Proof. reflexivity. Qed.

Lemma bind_lift_ok {A B} (a : A) (k : A -> M B) w : bind (lift (Ok a)) k w = k a w.
Proof. reflexivity. Qed.

Lemma bind_lift_err {A B} e (k : A -> M B) w :
  bind (lift (Err e)) k w = (Raised (Exc e), w).
Proof. reflexivity. Qed.

Lemma bind_ret {A B} (a : A) (k : A -> M B) w : bind (ret a) k w = k a w.
Proof. reflexivity. Qed.

Lemma bind_assoc {A B C} (m : M A) (k1 : A -> M B) (k2 : B -> M C) w :
  bind (bind m k1) k2 w = bind m (fun a => bind (k1 a) k2) w.
Proof. unfold bind. destruct (m w) as [[a|u|] w1]; reflexivity. Qed.

Lemma deliver_sigalrm_armed w :
  armed w ->
  deliver_sigalrm w = (Raised (Exc (TimeoutError "Execution timeout")), set_alarm 0 w).
Proof.
  intros [Hh Ha]. unfold deliver_sigalrm.
  apply Z.ltb_lt in Ha. rewrite Ha, Hh. reflexivity.
Qed.

Lemma new_events_are (given new old full : list event) :
  full = given ++ old -> full = new ++ old -> new = given.
Proof. intros -> H. symmetry. eapply app_inv_tail. exact H. Qed.

(** ** The text of an envelope *)

Lemma pyval_nested_ind (Q : pyval -> Prop) :
  Q PyNone -> (forall b, Q (PyBool b)) -> (forall n, Q (PyInt n)) ->
  (forall s, Q (PyStr s)) ->
  (forall xs, Forall Q xs -> Q (PyList xs)) ->
  (forall xs, Forall Q xs -> Q (PyTuple xs)) ->
  (forall items, Forall (fun kv => Q (snd kv)) items -> Q (PyDict items)) ->
  (forall xs, Q (PySet xs)) -> (forall t, Q (PyObject t)) ->
  forall v, Q v.
Proof.
  intros HN HB HI HS HL HT HD HSet HO.
  fix IH 1. intros [ |b|n|s|xs|xs|items|xs|t];
    [apply HN | apply HB | apply HI | apply HS | apply HL | apply HT | apply HD
    | apply HSet | apply HO].
  - induction xs as [|x xs IHxs]; constructor; [apply IH | exact IHxs].
  - induction xs as [|x xs IHxs]; constructor; [apply IH | exact IHxs].
  - induction items as [|[k x] items IHi]; constructor; [apply IH | exact IHi].
Qed.

Lemma json_dumps_list xs :
  json_dumps (PyList xs)
  = match dump_elems xs true with
    | Err e => Err e
    | Ok body => Ok ("[" +:+ body)
    end.
Proof. reflexivity. Qed.

Lemma json_dumps_tuple xs :
  json_dumps (PyTuple xs)
  = match dump_elems xs true with
    | Err e => Err e
    | Ok body => Ok ("[" +:+ body)
    end.
Proof. reflexivity. Qed.

Lemma json_dumps_dict items :
  json_dumps (PyDict items)
  = match dump_members items true with
    | Err e => Err e
    | Ok body => Ok ("{" +:+ body)
    end.
Proof. reflexivity. Qed.

Lemma all_printable_app a b :
  all_printable (a +:+ b) = (all_printable a && all_printable b)%bool.
Proof.
  induction a as [|c a IH]; [reflexivity|].
  rewrite string_app_cons. simpl. rewrite IH. apply andb_assoc.
Qed.

Lemma json_escape_char_printable c : all_printable (json_escape_char c) = true.
Proof. destruct c as [[] [] [] [] [] [] [] []]; vm_compute; reflexivity. Qed.

Lemma json_escape_printable s : all_printable (json_escape s) = true.
Proof.
  induction s as [|c s IH]; [reflexivity|].
  simpl. rewrite all_printable_app, json_escape_char_printable, IH. reflexivity.
Qed.

Lemma json_quote_printable s : all_printable (json_quote s) = true.
Proof.
  unfold json_quote. rewrite !all_printable_app, json_escape_printable. reflexivity.
Qed.

Lemma pretty_N_char_printable x : printable (pretty_N_char x) = true.
Proof. unfold pretty_N_char. repeat case_match; reflexivity. Qed.

Lemma pretty_N_go_printable x s :
  all_printable s = true -> all_printable (pretty_N_go x s) = true.
Proof.
  revert s. induction (N.lt_wf_0 x) as [x _ IH]; intros s Hs.
  assert (x = 0 \/ 0 < x)%N as [->|Hx] by lia.
  - rewrite pretty_N_go_0. exact Hs.
  - rewrite pretty_N_go_step by exact Hx. apply IH.
    + apply N.div_lt; [exact Hx|reflexivity].
    + simpl. rewrite pretty_N_char_printable, Hs. reflexivity.
Qed.

Lemma pretty_Z_printable (n : Z) : all_printable (pretty n) = true.
Proof.
  assert (forall p : positive, all_printable (pretty p) = true) as Hp.
  { intros p. unfold pretty, pretty_positive, pretty, pretty_N.
    case_decide; [reflexivity|]. apply pretty_N_go_printable. reflexivity. }
  destruct n as [|p|p]; unfold pretty, pretty_Z; [reflexivity|apply Hp|].
  rewrite all_printable_app, Hp. reflexivity.
Qed.

Lemma int_text_printable n text : int_text n = Ok text -> all_printable text = true.
Proof.
  unfold int_text. destruct (10 ^ MAX_STR_DIGITS <=? Z.abs n); [discriminate|].
  intros H. invert H. apply pretty_Z_printable.
Qed.

Lemma sep_printable first : all_printable (sep first) = true.
Proof. destruct first; reflexivity. Qed.

(** Whatever [json.dumps] encodes, it writes in printable ASCII. *)
Lemma json_dumps_printable v text :
  json_dumps v = Ok text -> all_printable text = true.
Proof.
  revert text. induction v as [ |b|n|s|xs IH|xs IH|items IH|xs|t]
    using pyval_nested_ind; intros text H.
  - invert H. reflexivity.
  - destruct b; invert H; reflexivity.
  - apply (int_text_printable n). exact H.
  - invert H. apply json_quote_printable.
  - rewrite json_dumps_list in H.
    assert (forall first body, dump_elems xs first = Ok body -> all_printable body = true)
      as Hel.
    { clear H. induction IH as [|x xs Hx _ IHxs]; intros first body Hb; simpl in Hb.
      - invert Hb. reflexivity.
      - destruct (json_dumps x) as [sx|] eqn:Ex; [|discriminate].
        destruct (dump_elems xs false) as [rest|] eqn:Er; [|discriminate].
        invert Hb.
        assert (all_printable sx = true) as Hsx
          by (first [apply Hx; reflexivity | apply Hx; exact Ex]).
        rewrite !all_printable_app, sep_printable, Hsx, (IHxs _ _ Er). reflexivity. }
    destruct (dump_elems xs true) as [body|] eqn:Eb; [|discriminate].
    invert H. rewrite all_printable_app, (Hel _ _ Eb). reflexivity.
  - rewrite json_dumps_tuple in H.
    assert (forall first body, dump_elems xs first = Ok body -> all_printable body = true)
      as Hel.
    { clear H. induction IH as [|x xs Hx _ IHxs]; intros first body Hb; simpl in Hb.
      - invert Hb. reflexivity.
      - destruct (json_dumps x) as [sx|] eqn:Ex; [|discriminate].
        destruct (dump_elems xs false) as [rest|] eqn:Er; [|discriminate].
        invert Hb.
        assert (all_printable sx = true) as Hsx
          by (first [apply Hx; reflexivity | apply Hx; exact Ex]).
        rewrite !all_printable_app, sep_printable, Hsx, (IHxs _ _ Er). reflexivity. }
    destruct (dump_elems xs true) as [body|] eqn:Eb; [|discriminate].
    invert H. rewrite all_printable_app, (Hel _ _ Eb). reflexivity.
  - rewrite json_dumps_dict in H.
    assert (forall first body, dump_members items first = Ok body ->
                               all_printable body = true) as Hel.
    { clear H. induction IH as [|[k x] items Hx _ IHi]; intros first body Hb; simpl in Hb.
      - invert Hb. reflexivity.
      - destruct (json_key k) as [sk|]; [|discriminate].
        destruct (json_dumps x) as [sx|] eqn:Ex; [|discriminate].
        destruct (dump_members items false) as [rest|] eqn:Er; [|discriminate].
        invert Hb. cbn [snd] in Hx.
        assert (all_printable sx = true) as Hsx
          by (first [apply Hx; reflexivity | apply Hx; exact Ex]).
        rewrite !all_printable_app, sep_printable, json_quote_printable,
          Hsx, (IHi _ _ Er). reflexivity. }
    destruct (dump_members items true) as [body|] eqn:Eb; [|discriminate].
    invert H. rewrite all_printable_app, (Hel _ _ Eb). reflexivity.
  - discriminate.
  - discriminate.
Qed.

Lemma contains_cons needle c s :
  contains needle (String c s)
  = if String.prefix needle (String c s) then true else contains needle s.
Proof. reflexivity. Qed.

Lemma printable_no_newline s : all_printable s = true -> contains newline s = false.
Proof.
  induction s as [|c s IH]; [reflexivity|].
  intros H. apply andb_prop in H as [Hc Hs]. rewrite contains_cons.
  destruct (String.prefix newline (String c s)) eqn:E; [|apply IH; exact Hs].
  apply String.prefix_correct in E. cbn in E. injection E as E' _.
  rewrite E' in Hc. discriminate Hc.
Qed.

Lemma json_dumps_envelope_error m :
  json_dumps (envelope_error m) = Ok (error_text m).
Proof. reflexivity. Qed.

Lemma handled_error e : exists msg, handled e = envelope_error msg /\ execution_error_text msg.
Proof.
  destruct e as [m|m|cls m]; eexists; (split; [reflexivity|]).
  - left. reflexivity.
  - right; left. reflexivity.
  - right; right; right. eexists. reflexivity.
Qed.

(** ** The runner, statement by statement *)

Section RunnerLemmas.

Variable P : Platform.

(** Lines 69-73: the limits, the handler and the alarm. *)
Lemma try_body_cases src params w :
  match limiter_failure P w with
  | Some (e, w1) => try_body P src params w = (Raised (Exc e), w1)
  | None => try_body P src params w = compile_and_run P src params (armed_state w)
  end.
Proof.
  unfold limiter_failure.
  destruct (os_setrlimit P (rlimits w) RLIMIT_AS (MEMORY_LIMIT, MEMORY_LIMIT))
    as [e|] eqn:E1.
  - unfold try_body, setup_resource_limits, bind, setrlimit.
    change (256 * 1024 * 1024) with MEMORY_LIMIT. rewrite E1. reflexivity.
  - destruct (os_setrlimit P (rlimits (limited_as w)) RLIMIT_CPU (60, 60))
      as [e|] eqn:E2;
      unfold try_body, setup_resource_limits, bind, setrlimit;
      change (256 * 1024 * 1024) with MEMORY_LIMIT; rewrite E1;
      change (add_log (EvSetrlimit RLIMIT_AS (fst (MEMORY_LIMIT, MEMORY_LIMIT))
                         (snd (MEMORY_LIMIT, MEMORY_LIMIT)))
                (set_rlimit RLIMIT_AS (MEMORY_LIMIT, MEMORY_LIMIT) w))
        with (limited_as w);
      cbv beta iota; rewrite E2; reflexivity.
Qed.

Lemma armed_armed_state w : armed (armed_state w).
Proof. split; [reflexivity|]. simpl. lia. Qed.

Lemma armed_compile_state src w : armed (compile_state src w).
Proof. split; [reflexivity|]. simpl. lia. Qed.

(** Lines 76-102, started with the limits set and the alarm armed: the
    compiler is interrupted, raises, or answers, and then [exec]
    raises.  No path returns. *)
Lemma compile_and_run_armed src params w :
  compile_and_run P src params (armed_state w)
  = if compile_outlasts_alarm P src
    then (Raised (Exc (TimeoutError "Execution timeout")),
          set_alarm 0 (compile_state src w))
    else
      match compile_restricted_exec P src with
      | Err e => (Raised (Exc e), compile_state src w)
      | Ok _ => (Raised (Exc (TypeError exec_message)), exec_state src w)
      end.
Proof.
  unfold compile_and_run, call_compile_restricted_exec.
  rewrite !bind_assoc, bind_emit. fold (compile_state src w).
  rewrite bind_assoc.
  destruct (compile_outlasts_alarm P src).
  - unfold bind at 1.
    rewrite (deliver_sigalrm_armed _ (armed_compile_state src w)). reflexivity.
  - rewrite bind_ret.
    destruct (compile_restricted_exec P src) as [r|e]; reflexivity.
Qed.

Lemma try_body_stop src params w :
  try_body P src params w
  = (Raised (Exc (fst (stop P src w))), snd (stop P src w)).
Proof.
  pose proof (try_body_cases src params w) as H. unfold stop.
  destruct (limiter_failure P w) as [[e w0]|]; [exact H|].
  rewrite H, compile_and_run_armed.
  destruct (compile_outlasts_alarm P src); [reflexivity|].
  destruct (compile_restricted_exec P src); reflexivity.
Qed.

(** [execute_tool_code] returns the envelope of the exception that
    stopped the body of its [try] statement, with the alarm cancelled. *)
Lemma execute_tool_code_stop src params w :
  execute_tool_code P src params w
  = (Returned (handled (fst (stop P src w))), disarm (snd (stop P src w))).
Proof.
  unfold execute_tool_code, try_finally, try_except.
  rewrite try_body_stop. reflexivity.
Qed.

Lemma read_request_decode w :
  read_request P w =
    (match decode_request P (stdin w) with
     | Ok r => Returned r
     | Err e => Raised (Exc e)
     end, w).
Proof.
  unfold read_request, decode_request, bind, sys_stdin_read.
  destruct (json_loads P (stdin w)) as [input_data|e]; [|reflexivity]. simpl.
  destruct (subscript input_data "code") as [code_field|e]; [|reflexivity]. simpl.
  destruct (b64decode P code_field) as [raw|e]; [|reflexivity]. simpl.
  destruct (utf8_decode P raw) as [code_content|e]; [|reflexivity]. simpl.
  destruct (get_default input_data "params" (PyDict [])) as [params|e]; reflexivity.
Qed.

Lemma py_print_runner text w :
  py_print P Runner [PyStr text] w = (Returned PyNone, print_line text w).
Proof. reflexivity. Qed.

(** The whole run, in closed form. *)
Lemma run_process_spec w :
  run_process P w
  = match decode_request P (stdin w) with
    | Err e => (Exited 1, print_line (error_text ("Runner error: " +:+ exc_str e)) w)
    | Ok (src, _) =>
        match json_dumps (handled (fst (stop P src w))) with
        | Ok text => (Exited 0, print_line text (disarm (snd (stop P src w))))
        | Err e =>
            (Exited 1,
             print_line (error_text ("Runner error: " +:+ exc_str e))
               (disarm (snd (stop P src w))))
        end
    end.
Proof.
  unfold run_process, main, try_except, bind. rewrite read_request_decode.
  destruct (decode_request P (stdin w)) as [[src params]|e]; [|reflexivity].
  cbn [fst snd]. rewrite execute_tool_code_stop.
  destruct (json_dumps (handled (fst (stop P src w)))) as [text|e]; reflexivity.
Qed.

(** The envelope [execute_tool_code] returns is an error envelope, and
    [json.dumps] encodes it. *)
Lemma run_process_decoded w src params :
  decode_request P (stdin w) = Ok (src, params) ->
  exists msg,
    handled (fst (stop P src w)) = envelope_error msg /\
    execution_error_text msg /\
    run_process P w
      = (Exited 0, print_line (error_text msg) (disarm (snd (stop P src w)))).
Proof.
  intros Hd. destruct (handled_error (fst (stop P src w))) as (msg & Hm & Hk).
  exists msg. split; [exact Hm|]. split; [exact Hk|].
  rewrite run_process_spec, Hd, Hm, json_dumps_envelope_error. reflexivity.
Qed.

Lemma run_process_undecoded w e :
  decode_request P (stdin w) = Err e ->
  run_process P w
    = (Exited 1, print_line (error_text ("Runner error: " +:+ exc_str e)) w).
Proof. intros Hd. rewrite run_process_spec, Hd. reflexivity. Qed.

(** What the refusal of a limit leaves in the log. *)
Lemma limiter_failure_log w e w0 :
  limiter_failure P w = Some (e, w0) ->
  stdin w0 = stdin w /\ stdout w0 = stdout w /\ alarm w0 = alarm w /\
  (log w0 = [EvSetrlimit RLIMIT_AS 268435456 268435456] ++ log w \/
   log w0 = [EvSetrlimit RLIMIT_CPU 60 60;
             EvSetrlimit RLIMIT_AS 268435456 268435456] ++ log w).
Proof.
  unfold limiter_failure.
  destruct (os_setrlimit P (rlimits w) RLIMIT_AS _) as [e1|].
  - intros H. invert H. repeat split; try reflexivity. left; reflexivity.
  - destruct (os_setrlimit P (rlimits (limited_as w)) RLIMIT_CPU _) as [e2|];
      [|discriminate].
    intros H. invert H. repeat split; try reflexivity. right; reflexivity.
Qed.

(** The log and the standard output where the body of the [try]
    statement stops: one of four shapes, and nothing written. *)
Lemma stop_log src w :
  stdout (snd (stop P src w)) = stdout w /\
  stdin (snd (stop P src w)) = stdin w /\
  (log (snd (stop P src w)) = [EvSetrlimit RLIMIT_AS 268435456 268435456] ++ log w \/
   log (snd (stop P src w))
     = [EvSetrlimit RLIMIT_CPU 60 60; EvSetrlimit RLIMIT_AS 268435456 268435456]
         ++ log w \/
   log (snd (stop P src w)) = (EvCompile src :: prelude_log) ++ log w \/
   log (snd (stop P src w)) = (EvExec :: EvCompile src :: prelude_log) ++ log w).
Proof.
  unfold stop. destruct (limiter_failure P w) as [[e w0]|] eqn:Hl.
  - destruct (limiter_failure_log _ _ _ Hl) as (Hi & Ho & _ & [H|H]);
      (split; [exact Ho|]); (split; [exact Hi|]); [left|right; left]; exact H.
  - destruct (compile_outlasts_alarm P src).
    + split; [reflexivity|]. split; [reflexivity|]. right; right; left. reflexivity.
    + destruct (compile_restricted_exec P src);
        (split; [reflexivity|]); (split; [reflexivity|]);
        [right; right; right|right; right; left]; reflexivity.
Qed.

End RunnerLemmas.

(** * The claims *)

(** ** Envelopes *)

(** C2.  Every envelope of the runner is well formed.  [execute_tool_code]
    always returns one, with a boolean [ok] and exactly one of [result]
    (when [ok] is true) and [error] (when [ok] is false).  The line a run
    prints is the text of a well-formed envelope: the one
    [execute_tool_code] returned when the request was read, and the one
    [main] builds on its failure path when it was not, which has [ok]
    false, the error "Runner error: ..." and no [result]. *)
Theorem C2_envelope_invariant (P : Platform) :
  (forall src params w, exists env w',
      execute_tool_code P src params w = (Returned env, w') /\
      well_formed_envelope env = true) /\
  (forall w, exists env text w1 status,
      well_formed_envelope env = true /\
      json_dumps env = Ok text /\
      run_process P w = (status, print_line text w1) /\
      match decode_request P (stdin w) with
      | Ok (src, params) => execute_tool_code P src params w = (Returned env, w1)
      | Err e =>
          env = envelope_error ("Runner error: " +:+ exc_str e) /\
          dict_get "ok" env = Some (PyBool false) /\
          dict_get "result" env = None
      end) /\
  (forall env,
      well_formed_envelope env = true ->
      (dict_get "ok" env = Some (PyBool true) /\
       is_Some (dict_get "result" env) /\ dict_get "error" env = None) \/
      (dict_get "ok" env = Some (PyBool false) /\
       is_Some (dict_get "error" env) /\ dict_get "result" env = None)).
Proof.
  split; [|split].
  - intros src params w. rewrite execute_tool_code_stop. eexists _, _.
    split; [reflexivity|].
    destruct (handled_error (fst (stop P src w))) as (msg & -> & _). reflexivity.
  - intros w. destruct (decode_request P (stdin w)) as [[src params]|e] eqn:Hd.
    + destruct (run_process_decoded P w src params Hd) as (msg & Hm & _ & Hr).
      exists (envelope_error msg), (error_text msg), (disarm (snd (stop P src w))),
        (Exited 0).
      split; [reflexivity|]. split; [reflexivity|]. split; [exact Hr|].
      rewrite execute_tool_code_stop, Hm. reflexivity.
    + exists (envelope_error ("Runner error: " +:+ exc_str e)),
        (error_text ("Runner error: " +:+ exc_str e)), w, (Exited 1).
      split; [reflexivity|]. split; [reflexivity|].
      split; [exact (run_process_undecoded P w e Hd)|].
      split; [reflexivity|]. split; reflexivity.
  - intros env H. unfold well_formed_envelope in H.
    destruct env as [ | | | | | |items| | ]; try discriminate.
    destruct items as [|m1 [|m2 [|m3 items]]]; try discriminate.
    destruct (dict_get "ok" (PyDict [m1; m2])) as [[ |[]| | | | | | | ]|];
      try discriminate;
      destruct (dict_get "result" (PyDict [m1; m2])) as [r|];
      destruct (dict_get "error" (PyDict [m1; m2])) as [[ | | |s| | | | | ]|];
      try discriminate; [left|right]; repeat split; eauto.
Qed.

(** ** The timeout supervisor *)

(** C5.  Whatever the source, the parameters and the state of the process,
    [execute_tool_code] returns its envelope with no alarm pending, and the
    last thing it did before returning is [signal.alarm(0)]. *)
Theorem C5_alarm_disarmed_on_every_path (P : Platform) src params w :
  exists env w' earlier,
    execute_tool_code P src params w = (Returned env, w') /\
    alarm w' = 0 /\
    log w' = EvAlarm 0 :: earlier.
Proof.
  rewrite execute_tool_code_stop. eexists _, _, _.
  split; [reflexivity|]. split; reflexivity.
Qed.

(** C8.  With the alarm armed and [timeout_handler] installed, the passing
    of the deadline raises [TimeoutError]; and whenever the body of the
    [try] statement is unwound by a [TimeoutError], [execute_tool_code]
    returns the envelope with [ok] false whose error text, "Execution
    timeout", contains "timeout": the exception does not leave the
    function. *)
Theorem C8_timeout_becomes_envelope (P : Platform) src params w msg w1 :
  try_body P src (effective_params params) w = (Raised (Exc (TimeoutError msg)), w1) ->
  (forall w0, armed w0 ->
     deliver_sigalrm w0 =
       (Raised (Exc (TimeoutError "Execution timeout")), set_alarm 0 w0)) /\
  execute_tool_code P src params w
    = (Returned (envelope_error "Execution timeout"), disarm w1) /\
  dict_get "ok" (envelope_error "Execution timeout") = Some (PyBool false) /\
  contains "timeout" "Execution timeout" = true.
Proof.
  intros Hb. split; [exact deliver_sigalrm_armed|].
  split; [|split; reflexivity].
  unfold execute_tool_code, try_finally, try_except.
  fold (effective_params params). rewrite Hb. reflexivity.
Qed.

(** The deadline passes while the restricted compiler works on the source
    of the submission [hello], in a fresh process where the limits are
    accepted: the alarm is consumed, the handler raises, and the envelope
    is the one of the timeout. *)
Lemma C8_witness :
  execute_tool_code Examples.slow_platform
    (Examples.sub_source Examples.hello) (PyDict []) (Examples.fresh EmptyString)
  = (Returned (envelope_error "Execution timeout"),
     disarm
       (set_alarm 0
          (add_log (EvCompile (Examples.sub_source Examples.hello))
             (armed_state (Examples.fresh EmptyString))))).
Proof.
  refine (proj1 (proj2 (C8_timeout_becomes_envelope _ _ _ _ "Execution timeout" _ _))).
  vm_compute. reflexivity.
Defined.

(** ** The capability set *)

Lemma ints_of_map ns : ints_of (map PyInt ns) = Some ns.
Proof. induction ns as [|n ns IH]; simpl; [reflexivity|]. rewrite IH. reflexivity. Qed.

Lemma fold_max_spec ns n :
  n <= fold_left Z.max ns n /\
  Forall (fun x => x <= fold_left Z.max ns n) ns /\
  In (fold_left Z.max ns n) (n :: ns).
Proof.
  revert n. induction ns as [|m ns IH]; intros n; simpl.
  - split; [lia|]. split; [constructor|]. left; reflexivity.
  - destruct (IH (Z.max n m)) as (H1 & H2 & H3).
    split; [lia|]. split; [constructor; [lia|exact H2]|].
    simpl in H3. destruct H3 as [H3|H3]; [|right; right; exact H3].
    destruct (Z.max_spec n m) as [[_ Hm]|[_ Hm]]; rewrite Hm in H3 at 1;
      [right; left; exact H3 | left; exact H3].
Qed.

Lemma safe_builtins_lookup :
  builtins_of create_safe_globals = list_to_map safe_builtins.
Proof. unfold builtins_of, create_safe_globals. rewrite lookup_singleton_eq. reflexivity. Qed.

(** C7.  In the capability set of [create_safe_globals] the name [min] is
    bound to the built-in [max]: code that calls [min] on a non-empty list
    of integers gets an element of the list that is at least as large as
    every element ([2] on [[1, 2]], where the built-in [min] gives [1]);
    every other name of the set is bound to the built-in of that name. *)
Theorem C7_min_is_bound_to_max :
  builtins_of create_safe_globals !! "min" = Some B_max /\
  builtin_name B_max = "max" /\
  (forall (P : Platform) n ns w,
      run_prog P (builtins_of create_safe_globals)
        (Call "min" [PyList (map PyInt (n :: ns))] (fun v => Ret v)) w
      = (Returned (PyInt (fold_left Z.max ns n)), w) /\
      Forall (fun x => x <= fold_left Z.max ns n) (n :: ns) /\
      In (fold_left Z.max ns n) (n :: ns)) /\
  (forall (P : Platform) w,
      run_prog P (builtins_of create_safe_globals)
        (Call "min" [PyList [PyInt 1; PyInt 2]] (fun v => Ret v)) w
      = (Returned (PyInt 2), w) /\
      py_min P [PyList [PyInt 1; PyInt 2]] = Ok (PyInt 1)) /\
  (forall name b,
      builtins_of create_safe_globals !! name = Some b ->
      name <> "min" -> builtin_name b = name).
Proof.
  rewrite safe_builtins_lookup.
  split; [reflexivity|]. split; [reflexivity|]. split; [|split].
  - intros P n ns w.
    destruct (fold_max_spec ns n) as (H1 & H2 & H3).
    split; [|split; [constructor; assumption|assumption]].
    cbn [run_prog].
    replace (list_to_map safe_builtins !! "min") with (Some B_max) by reflexivity.
    unfold call_builtin, py_max, int_operands, operands.
    rewrite ints_of_map. reflexivity.
  - intros P w. split; reflexivity.
  - intros name b Hl Hne.
    apply elem_of_list_to_map_2 in Hl. unfold safe_builtins in Hl.
    repeat (apply elem_of_cons in Hl as [Hl|Hl];
            [injection Hl as -> ->; solve [reflexivity | contradiction]|]).
    apply elem_of_nil in Hl. contradiction.
Qed.

(** ** The entry point *)

(** C3, what the code does.  Whatever the source and the parameters, once
    the request is read, the limits are accepted and the restricted
    compiler has answered, line 88 hands the named tuple of the compiler to
    [exec], which raises [TypeError].  The look-up of [Tools] and of [run]
    (lines 91-99) is not reached: the envelope has [ok] false and the error
    "Execution error: exec() arg 1 must be a string, bytes or code object",
    and nothing follows the call of [exec] in the log but the cancelling of
    the alarm. *)
Theorem C3_exec_receives_the_named_tuple (P : Platform) w src params r :
  decode_request P (stdin w) = Ok (src, params) ->
  limiter_failure P w = None ->
  compile_outlasts_alarm P src = false ->
  compile_restricted_exec P src = Ok r ->
  compile_and_run P src (effective_params params) (armed_state w)
    = (Raised (Exc (TypeError exec_message)), exec_state src w) /\
  execute_tool_code P src params w
    = (Returned
         (envelope_error
            "Execution error: exec() arg 1 must be a string, bytes or code object"),
       disarm (exec_state src w)) /\
  run_process P w
    = (Exited 0,
       print_line
         (error_text
            "Execution error: exec() arg 1 must be a string, bytes or code object")
         (disarm (exec_state src w))) /\
  log (disarm (exec_state src w))
    = EvAlarm 0 :: EvExec :: EvCompile src :: prelude_log ++ log w.
Proof.
  intros Hd Hl Ho Hc.
  assert (stop P src w = (TypeError exec_message, exec_state src w)) as Hs
    by (unfold stop; rewrite Hl, Ho, Hc; reflexivity).
  split; [rewrite compile_and_run_armed, Ho, Hc; reflexivity|].
  split; [rewrite execute_tool_code_stop, Hs; reflexivity|].
  split; [|reflexivity].
  rewrite run_process_spec, Hd, Hs. reflexivity.
Qed.

(** The requests of the submissions [hello] (a [Tools] with a [run] that
    returns "Hello, safe world!") and [no_tools], in a fresh process where
    the limits are accepted. *)
Lemma C3_witness :
  let P := Examples.example_platform Examples.limits_accepted in
  let reply :=
    error_text "Execution error: exec() arg 1 must be a string, bytes or code object"
      +:+ newline in
  run_process P (Examples.fresh (Examples.request_text (Examples.sub_blob Examples.hello) None))
    = (Exited 0,
       print_line
         (error_text
            "Execution error: exec() arg 1 must be a string, bytes or code object")
         (disarm
            (exec_state (Examples.sub_source Examples.hello)
               (Examples.fresh
                  (Examples.request_text (Examples.sub_blob Examples.hello) None))))) /\
  stdout (snd (run_process P
                 (Examples.fresh
                    (Examples.request_text (Examples.sub_blob Examples.hello) None))))
    = reply /\
  stdout (snd (run_process P
                 (Examples.fresh
                    (Examples.request_text (Examples.sub_blob Examples.no_tools) None))))
    = reply.
Proof.
  intros P reply.
  split; [|split].
  - exact (proj1 (proj2 (proj2
             (C3_exec_receives_the_named_tuple P
                (Examples.fresh
                   (Examples.request_text (Examples.sub_blob Examples.hello) None))
                _ _ _ eq_refl eq_refl eq_refl eq_refl)))).
  - rewrite (proj1 (proj2 (proj2
               (C3_exec_receives_the_named_tuple P
                  (Examples.fresh
                     (Examples.request_text (Examples.sub_blob Examples.hello) None))
                  _ _ _ eq_refl eq_refl eq_refl eq_refl)))).
    reflexivity.
  - rewrite (proj1 (proj2 (proj2
               (C3_exec_receives_the_named_tuple P
                  (Examples.fresh
                     (Examples.request_text (Examples.sub_blob Examples.no_tools) None))
                  _ _ _ eq_refl eq_refl eq_refl eq_refl)))).
    reflexivity.
Defined.

(** ** Resource ceilings *)

(** C9.  Whatever the platform, the input, the arguments and the
    environment of the process: every limit the runner sets is 256 MiB of
    address space (soft and hard) or 60 seconds of CPU time (soft and hard)
    and every alarm is the 120-second one or the cancelling one.  The log of
    a run has one of five shapes: the request was not read and nothing was
    set; the memory limit was refused; the CPU limit was refused; the
    compiler was called and did not answer; [exec] was called.  In the last
    two the log up to the call of the compiler is exactly the memory limit,
    the CPU limit, the handler and the 120-second alarm, each once.  When
    both limits are accepted, the compiler is called in a state where the
    alarm is pending with 120 seconds and [timeout_handler] as its handler
    and where both ceilings are in force, and the process ends with both
    ceilings in force and no alarm pending. *)
Theorem C9_fixed_resource_ceilings (P : Platform) (w : process) :
  (exists new,
      log (snd (run_process P w)) = new ++ log w /\
      Forall fixed_ceilings new /\
      ((exists line, new = [EvWrite Runner line]) \/
       (exists line,
           new = [EvWrite Runner line; EvAlarm 0;
                  EvSetrlimit RLIMIT_AS 268435456 268435456]) \/
       (exists line,
           new = [EvWrite Runner line; EvAlarm 0; EvSetrlimit RLIMIT_CPU 60 60;
                  EvSetrlimit RLIMIT_AS 268435456 268435456]) \/
       (exists line src,
           new = EvWrite Runner line :: EvAlarm 0 :: EvCompile src :: prelude_log) \/
       (exists line src,
           new = EvWrite Runner line :: EvAlarm 0 :: EvExec :: EvCompile src
                   :: prelude_log))) /\
  (forall src params,
      decode_request P (stdin w) = Ok (src, params) ->
      limiter_failure P w = None ->
      try_body P src (effective_params params) w
        = compile_and_run P src (effective_params params) (armed_state w) /\
      alarm (armed_state w) = 120 /\
      on_sigalrm (armed_state w) = Handler_timeout_handler /\
      rlimits (armed_state w) RLIMIT_AS = Some (268435456, 268435456) /\
      rlimits (armed_state w) RLIMIT_CPU = Some (60, 60) /\
      rlimits (snd (run_process P w)) RLIMIT_AS = Some (268435456, 268435456) /\
      rlimits (snd (run_process P w)) RLIMIT_CPU = Some (60, 60) /\
      on_sigalrm (snd (run_process P w)) = Handler_timeout_handler /\
      alarm (snd (run_process P w)) = 0).
Proof.
  split.
  - destruct (decode_request P (stdin w)) as [[src params]|e] eqn:Hd.
    + destruct (run_process_decoded P w src params Hd) as (msg & _ & _ & ->).
      destruct (stop_log P src w) as (_ & _ & [H|[H|[H|H]]]);
        [ exists [EvWrite Runner (error_text msg +:+ newline); EvAlarm 0;
                  EvSetrlimit RLIMIT_AS 268435456 268435456]
        | exists [EvWrite Runner (error_text msg +:+ newline); EvAlarm 0;
                  EvSetrlimit RLIMIT_CPU 60 60;
                  EvSetrlimit RLIMIT_AS 268435456 268435456]
        | exists (EvWrite Runner (error_text msg +:+ newline) :: EvAlarm 0
                    :: EvCompile src :: prelude_log)
        | exists (EvWrite Runner (error_text msg +:+ newline) :: EvAlarm 0
                    :: EvExec :: EvCompile src :: prelude_log) ];
        (split; [simpl; rewrite H; reflexivity|]); (split; [events_ok|]).
      * right; left. eauto.
      * right; right; left. eauto.
      * right; right; right; left. eauto.
      * right; right; right; right. eauto.
    + rewrite (run_process_undecoded P w e Hd).
      exists [EvWrite Runner (error_text ("Runner error: " +:+ exc_str e) +:+ newline)].
      split; [reflexivity|]. split; [events_ok|]. left. eauto.
  - intros src params Hd Hl.
    pose proof (try_body_cases P src (effective_params params) w) as Hb.
    rewrite Hl in Hb. split; [exact Hb|]. repeat (split; [reflexivity|]).
    destruct (run_process_decoded P w src params Hd) as (msg & _ & _ & ->).
    unfold stop. rewrite Hl.
    destruct (compile_outlasts_alarm P src); [repeat split; reflexivity|].
    destruct (compile_restricted_exec P src); repeat split; reflexivity.
Qed.

(** The request of the submission [hello], in a fresh process where the
    limits are accepted. *)
Lemma C9_witness :
  let P := Examples.example_platform Examples.limits_accepted in
  let w := Examples.fresh (Examples.request_text (Examples.sub_blob Examples.hello) None) in
  rlimits (snd (run_process P w)) RLIMIT_AS = Some (268435456, 268435456) /\
  rlimits (snd (run_process P w)) RLIMIT_CPU = Some (60, 60) /\
  on_sigalrm (snd (run_process P w)) = Handler_timeout_handler /\
  alarm (snd (run_process P w)) = 0.
Proof.
  intros P w.
  exact (proj2 (proj2 (proj2 (proj2 (proj2
           (proj2 (C9_fixed_resource_ceilings P w) _ _ eq_refl eq_refl)))))).
Defined.

(** ** Failure of the limiter *)

(** C1, as the code has it.  When the platform refuses a limit, nothing is
    compiled, [exec] is not called and no alarm is armed: the log holds the
    attempts to set a limit, the cancelling of the alarm and the line of
    the envelope.  The refusal is caught by the clause [except Exception]
    of [execute_tool_code], which returns the envelope of that clause ([ok]
    false, "Execution error: " and the text of the exception, for an
    exception such as [ValueError] or [OSError]); [main] prints it and the
    process ends with status 0. *)
Theorem C1_limiter_failure_is_reported (P : Platform) w src params e w0 :
  decode_request P (stdin w) = Ok (src, params) ->
  limiter_failure P w = Some (e, w0) ->
  execute_tool_code P src params w = (Returned (handled e), disarm w0) /\
  (forall cls msg, e = OtherError cls msg ->
     handled e = envelope_error ("Execution error: " +:+ msg)) /\
  exists text attempts,
    json_dumps (handled e) = Ok text /\
    run_process P w = (Exited 0, print_line text (disarm w0)) /\
    log (print_line text (disarm w0))
      = EvWrite Runner (text +:+ newline) :: EvAlarm 0 :: attempts ++ log w /\
    Forall is_setrlimit attempts.
Proof.
  intros Hd Hl.
  assert (stop P src w = (e, w0)) as Hs by (unfold stop; rewrite Hl; reflexivity).
  split; [rewrite execute_tool_code_stop, Hs; reflexivity|].
  split; [intros cls msg ->; reflexivity|].
  destruct (handled_error e) as (m & Hm & _).
  assert (run_process P w = (Exited 0, print_line (error_text m) (disarm w0))) as Hr.
  { rewrite run_process_spec, Hd, Hs. cbn [fst snd].
    rewrite Hm, json_dumps_envelope_error. reflexivity. }
  destruct (limiter_failure_log P _ _ _ Hl) as (_ & _ & _ & [Hlog|Hlog]);
    [ exists (error_text m), [EvSetrlimit RLIMIT_AS 268435456 268435456]
    | exists (error_text m), [EvSetrlimit RLIMIT_CPU 60 60;
                              EvSetrlimit RLIMIT_AS 268435456 268435456] ];
    (split; [rewrite Hm; reflexivity|]); (split; [exact Hr|]);
    (split; [simpl; rewrite Hlog; reflexivity|]); events_ok.
Qed.

(** The submission [hello] on a platform that refuses every limit. *)
Lemma C1_witness :
  fst (run_process (Examples.example_platform Examples.limits_refused)
         (Examples.fresh (Examples.request_text (Examples.sub_blob Examples.hello) None)))
  = Exited 0.
Proof.
  destruct (C1_limiter_failure_is_reported
              (Examples.example_platform Examples.limits_refused)
              (Examples.fresh (Examples.request_text (Examples.sub_blob Examples.hello) None))
              _ _ _ _ eq_refl eq_refl)
    as (_ & _ & text & attempts & _ & Hr & _).
  rewrite Hr. reflexivity.
Defined.

(** C1 fails as stated: on a platform that refuses the memory limit the
    runner answers with an ordinary envelope and the status 0. *)
Lemma C1_counterexample :
  let P := Examples.example_platform Examples.limits_refused in
  let w := Examples.fresh (Examples.request_text (Examples.sub_blob Examples.hello) None) in
  limiter_failure P w
    = Some (ValueError "current limit exceeds maximum limit",
            add_log (EvSetrlimit RLIMIT_AS 268435456 268435456) w) /\
  fst (run_process P w) = Exited 0 /\
  stdout (snd (run_process P w))
    = error_text "Execution error: current limit exceeds maximum limit" +:+ newline.
Proof. vm_compute. split; [|split]; reflexivity. Qed.

(** ** Exit status *)

(** C4.  When the request is read, [execute_tool_code] returns an envelope
    with [ok] false, [main] prints it and the process ends with status 0.
    When the request cannot be read the process prints the envelope "Runner
    error: ..." and ends with status 1; the status is 1 in that case only,
    and the request cannot be read exactly when [json.loads] refuses the
    input, when the value it returns has no member [code], or when the
    decoding of that member from base64 or from UTF-8 fails. *)
Theorem C4_exit_status (P : Platform) (w : process) :
  match decode_request P (stdin w) with
  | Err e =>
      run_process P w
        = (Exited 1, print_line (error_text ("Runner error: " +:+ exc_str e)) w)
  | Ok (src, params) =>
      exists msg w1,
        execute_tool_code P src params w = (Returned (envelope_error msg), w1) /\
        run_process P w = (Exited 0, print_line (error_text msg) w1)
  end /\
  (fst (run_process P w) = Exited 1 <-> exists e, decode_request P (stdin w) = Err e) /\
  (forall e,
      decode_request P (stdin w) = Err e <->
      json_loads P (stdin w) = Err e \/
      exists input_data,
        json_loads P (stdin w) = Ok input_data /\
        (subscript input_data "code" = Err e \/
         exists code_field,
           subscript input_data "code" = Ok code_field /\
           (b64decode P code_field = Err e \/
            exists raw, b64decode P code_field = Ok raw /\ utf8_decode P raw = Err e))).
Proof.
  split; [|split].
  - destruct (decode_request P (stdin w)) as [[src params]|e] eqn:Hd.
    + destruct (run_process_decoded P w src params Hd) as (msg & Hm & _ & Hr).
      exists msg, (disarm (snd (stop P src w))).
      split; [rewrite execute_tool_code_stop, Hm; reflexivity|exact Hr].
    + exact (run_process_undecoded P w e Hd).
  - destruct (decode_request P (stdin w)) as [[src params]|e] eqn:Hd.
    + destruct (run_process_decoded P w src params Hd) as (msg & _ & _ & ->).
      split; [discriminate|]. intros [e He]. discriminate He.
    + rewrite (run_process_undecoded P w e Hd). split; eauto.
  - intros e. unfold decode_request.
    destruct (json_loads P (stdin w)) as [input_data|e0] eqn:Hj.
    2:{ split; [intros H; left; congruence|].
        intros [H|(v & H & _)]; congruence. }
    destruct (subscript input_data "code") as [code_field|e1] eqn:Hs.
    2:{ split.
        - intros H. right. exists input_data. split; [reflexivity|]. left. congruence.
        - intros [H|(v & Hv & [H|(c & Hc & _)])]; [congruence| |];
            invert Hv; congruence. }
    destruct (b64decode P code_field) as [raw|e2] eqn:Hb.
    2:{ split.
        - intros H. right. exists input_data. split; [reflexivity|]. right.
          exists code_field. split; [exact Hs|]. left. congruence.
        - intros [H|(v & Hv & [H|(c & Hc & [H|(raw & Hr & _)])])];
            [congruence| | |]; invert Hv; [congruence| |];
            rewrite Hs in Hc; invert Hc; congruence. }
    destruct (utf8_decode P raw) as [code_content|e3] eqn:Hu.
    2:{ split.
        - intros H. right. exists input_data. split; [reflexivity|]. right.
          exists code_field. split; [exact Hs|]. right.
          exists raw. split; [exact Hb|]. congruence.
        - intros [H|(v & Hv & [H|(c & Hc & [H|(raw' & Hr & H)])])];
            [congruence| | |]; invert Hv; [congruence| |];
            rewrite Hs in Hc; invert Hc; [congruence|];
            rewrite Hb in Hr; invert Hr; congruence. }
    assert (exists params, get_default input_data "params" (PyDict []) = Ok params)
      as [params ->].
    { destruct input_data; try discriminate Hs. cbn [get_default].
      destruct (assoc_get "params" items); eauto. }
    split; [discriminate|].
    intros [H|(v & Hv & [H|(c & Hc & [H|(raw' & Hr & H)])])];
      [congruence| | |]; invert Hv; [congruence| |];
      rewrite Hs in Hc; invert Hc; [congruence|];
      rewrite Hb in Hr; invert Hr; congruence.
Qed.

(** ** Standard output *)

(** C6.  Every run writes exactly one line on the standard output: the
    text of one JSON object, the envelope, in printable ASCII and followed
    by a newline.  It is written by the runner, it is the last thing the
    process does, and nothing else is written before it: no event of the
    run before it is a write, by the runner or by submitted code through
    the [print] of the capability set. *)
Theorem C6_standard_output (P : Platform) (w : process) :
  exists msg w1 code before,
    run_process P w = (Exited code, print_line (error_text msg) w1) /\
    json_dumps (envelope_error msg) = Ok (error_text msg) /\
    well_formed_envelope (envelope_error msg) = true /\
    stdout (snd (run_process P w)) = stdout w +:+ error_text msg +:+ newline /\
    log (snd (run_process P w))
      = EvWrite Runner (error_text msg +:+ newline) :: before ++ log w /\
    Forall silent before /\
    all_printable (error_text msg) = true.
Proof.
  assert (forall msg, all_printable (error_text msg) = true) as Hp.
  { intros msg. apply (json_dumps_printable (envelope_error msg)). reflexivity. }
  destruct (decode_request P (stdin w)) as [[src params]|e] eqn:Hd.
  - destruct (run_process_decoded P w src params Hd) as (msg & _ & _ & Hr).
    destruct (stop_log P src w) as (Ho & _ & Hlog).
    assert (exists before,
               log (disarm (snd (stop P src w))) = before ++ log w /\
               Forall silent before) as (before & Hb & Hs).
    { destruct Hlog as [H|[H|[H|H]]];
        [ exists [EvAlarm 0; EvSetrlimit RLIMIT_AS 268435456 268435456]
        | exists [EvAlarm 0; EvSetrlimit RLIMIT_CPU 60 60;
                  EvSetrlimit RLIMIT_AS 268435456 268435456]
        | exists (EvAlarm 0 :: EvCompile src :: prelude_log)
        | exists (EvAlarm 0 :: EvExec :: EvCompile src :: prelude_log) ];
        (split; [simpl; rewrite H; reflexivity|]); events_ok. }
    exists msg, (disarm (snd (stop P src w))), 0, before. rewrite Hr.
    split; [reflexivity|]. split; [reflexivity|]. split; [reflexivity|].
    split; [simpl; rewrite Ho; reflexivity|].
    split; [cbn [snd print_line add_log log]; cbn [log] in Hb; simpl in Hb |- *;
            rewrite Hb; reflexivity|].
    split; [exact Hs|apply Hp].
  - exists ("Runner error: " +:+ exc_str e), w, 1, [].
    rewrite (run_process_undecoded P w e Hd).
    split; [reflexivity|]. split; [reflexivity|]. split; [reflexivity|].
    split; [reflexivity|]. split; [reflexivity|]. split; [constructor|apply Hp].
Qed.

(** ** Parameters that do not fit *)



(** * Further properties *)

(** ** When [exec] is called *)

(** X1.  [exec] is called only after the request was read, both limits
    were accepted and the restricted compiler answered before the deadline:
    if the log of a run holds an event in which the submitted code has a
    part, the event is the call of [exec] and these conditions were met.
    The call of [Tools], the call of [run] and a line printed through the
    capability set occur in no run. *)
Theorem X1_control_only_after_acceptance (P : Platform) w new e :
  log (snd (run_process P w)) = new ++ log w ->
  In e new ->
  ~ no_submitted_code e ->
  e = EvExec /\
  exists src params r,
    decode_request P (stdin w) = Ok (src, params) /\
    limiter_failure P w = None /\
    compile_outlasts_alarm P src = false /\
    compile_restricted_exec P src = Ok r.
Proof.
  intros Hlog He Hns.
  destruct (decode_request P (stdin w)) as [[src params]|e0] eqn:Hd.
  2:{ rewrite (run_process_undecoded P w e0 Hd) in Hlog.
      assert (new = [EvWrite Runner
                       (error_text ("Runner error: " +:+ exc_str e0) +:+ newline)]) as ->
        by (eapply new_events_are; [|exact Hlog]; reflexivity).
      no_part_in He Hns. }
  destruct (run_process_decoded P w src params Hd) as (msg & _ & _ & Hr).
  rewrite Hr in Hlog. clear Hr. unfold stop in Hlog.
  destruct (limiter_failure P w) as [[e1 w0]|] eqn:Hl.
  { destruct (limiter_failure_log P _ _ _ Hl) as (_ & _ & _ & [Hl0|Hl0]).
    - assert (new = [EvWrite Runner (error_text msg +:+ newline); EvAlarm 0;
                     EvSetrlimit RLIMIT_AS 268435456 268435456]) as ->
        by (eapply new_events_are; [|exact Hlog]; simpl; rewrite Hl0; reflexivity).
      no_part_in He Hns.
    - assert (new = [EvWrite Runner (error_text msg +:+ newline); EvAlarm 0;
                     EvSetrlimit RLIMIT_CPU 60 60;
                     EvSetrlimit RLIMIT_AS 268435456 268435456]) as ->
        by (eapply new_events_are; [|exact Hlog]; simpl; rewrite Hl0; reflexivity).
      no_part_in He Hns. }
  destruct (compile_outlasts_alarm P src) eqn:Ho.
  { assert (new = EvWrite Runner (error_text msg +:+ newline) :: EvAlarm 0
                    :: EvCompile src :: prelude_log) as ->
      by (eapply new_events_are; [|exact Hlog]; reflexivity).
    no_part_in He Hns. }
  destruct (compile_restricted_exec P src) as [r|e2] eqn:Hc.
  - assert (new = EvWrite Runner (error_text msg +:+ newline) :: EvAlarm 0
                    :: EvExec :: EvCompile src :: prelude_log) as ->
      by (eapply new_events_are; [|exact Hlog]; reflexivity).
    no_part_in He Hns.
    split; [reflexivity|]. exists src, params, r. auto.
  - assert (new = EvWrite Runner (error_text msg +:+ newline) :: EvAlarm 0
                    :: EvCompile src :: prelude_log) as ->
      by (eapply new_events_are; [|exact Hlog]; reflexivity).
    no_part_in He Hns.
Qed.

(** The run of the submission [hello]: [exec] was called, so its request
    was read, the limits were accepted and the compiler answered. *)
Lemma X1_witness :
  EvExec = EvExec /\
  exists src params r,
    decode_request (Examples.example_platform Examples.limits_accepted)
      (Examples.request_text (Examples.sub_blob Examples.hello) None) = Ok (src, params) /\
    limiter_failure (Examples.example_platform Examples.limits_accepted)
      (Examples.fresh (Examples.request_text (Examples.sub_blob Examples.hello) None)) = None /\
    compile_outlasts_alarm (Examples.example_platform Examples.limits_accepted) src = false /\
    compile_restricted_exec (Examples.example_platform Examples.limits_accepted) src
      = Ok r.
Proof.
  refine (X1_control_only_after_acceptance
            (Examples.example_platform Examples.limits_accepted)
            (Examples.fresh (Examples.request_text (Examples.sub_blob Examples.hello) None))
            _ EvExec _ _ _).
  - vm_compute. rewrite app_nil_r. reflexivity.
  - right; right. left. reflexivity.
  - intros H. exact H.
Defined.

(** ** The text of the envelope *)

(** X2.  The line the runner prints is printable ASCII and holds no
    newline before the one that ends it, whatever text an exception
    carried: an error text with line breaks, quotes or characters outside
    ASCII cannot break the framing of the response as one line. *)
Theorem X2_response_is_one_printable_line (P : Platform) (w : process) :
  exists text w1,
    snd (run_process P w) = print_line text w1 /\
    stdout (snd (run_process P w)) = stdout w1 +:+ text +:+ newline /\
    all_printable text = true /\
    contains newline text = false.
Proof.
  assert (exists msg w1 status,
             run_process P w = (status, print_line (error_text msg) w1))
    as (msg & w1 & status & Hr).
  { destruct (decode_request P (stdin w)) as [[src params]|e] eqn:Hd.
    - destruct (run_process_decoded P w src params Hd) as (msg & _ & _ & Hr). eauto.
    - rewrite (run_process_undecoded P w e Hd). eauto. }
  exists (error_text msg), w1. rewrite Hr.
  split; [reflexivity|]. split; [reflexivity|].
  assert (all_printable (error_text msg) = true) as Hp
    by (apply (json_dumps_printable (envelope_error msg)); reflexivity).
  split; [exact Hp|]. apply printable_no_newline. exact Hp.
Qed.

(** ** The kinds of error *)

(** X4.  The envelope the runner prints tells how the run ended.  With the
    status 1 its error text begins with "Runner error: ".  With the status 0
    it is a result envelope or its error text is "Execution timeout",
    "Memory limit exceeded", "Code compilation failed (restricted)" or
    begins with "Execution error: ".  No text of one kind is a text of
    another, whatever the message of the exception: the text of an
    exception cannot pass for a timeout, a memory fault, a rejection by the
    compiler or an error of the runner. *)
Theorem X4_error_kinds (P : Platform) (w : process) :
  (exists env text w1 status,
      run_process P w = (status, print_line text w1) /\
      json_dumps env = Ok text /\
      ((status = Exited 1 /\
        exists m, env = envelope_error ("Runner error: " +:+ m)) \/
       (status = Exited 0 /\
        ((exists v, env = envelope_result v) \/
         (exists msg, env = envelope_error msg /\ execution_error_text msg))))) /\
  (forall msg m, execution_error_text msg -> msg <> "Runner error: " +:+ m) /\
  (forall m,
      "Execution error: " +:+ m <> "Execution timeout" /\
      "Execution error: " +:+ m <> "Memory limit exceeded" /\
      "Execution error: " +:+ m <> "Code compilation failed (restricted)").
Proof.
  split; [|split].
  - destruct (decode_request P (stdin w)) as [[src params]|e] eqn:Hd.
    + destruct (run_process_decoded P w src params Hd) as (msg & _ & Hk & Hr).
      exists (envelope_error msg), (error_text msg), (disarm (snd (stop P src w))),
        (Exited 0).
      split; [exact Hr|]. split; [reflexivity|].
      right. split; [reflexivity|]. right. eauto.
    + exists (envelope_error ("Runner error: " +:+ exc_str e)),
        (error_text ("Runner error: " +:+ exc_str e)), w, (Exited 1).
      split; [exact (run_process_undecoded P w e Hd)|]. split; [reflexivity|].
      left. split; [reflexivity|]. eexists; reflexivity.
  - intros msg m [->|[->|[->|[m' ->]]]] H; vm_compute in H; discriminate H.
  - intros m. repeat split; intros H; vm_compute in H; discriminate H.
Qed.

(** ** The deadline *)

(** X6.  When both limits are accepted and the wall-clock deadline passes
    while the restricted compiler is still at work, the pending alarm is
    consumed, [timeout_handler] raises inside the call, and the reply is
    the envelope "Execution timeout" with the status 0; [exec] is not
    called. *)
Theorem X6_deadline_during_compilation (P : Platform) w src params :
  decode_request P (stdin w) = Ok (src, params) ->
  limiter_failure P w = None ->
  compile_outlasts_alarm P src = true ->
  try_body P src (effective_params params) w
    = (Raised (Exc (TimeoutError "Execution timeout")),
       set_alarm 0 (compile_state src w)) /\
  execute_tool_code P src params w
    = (Returned (envelope_error "Execution timeout"),
       disarm (set_alarm 0 (compile_state src w))) /\
  run_process P w
    = (Exited 0,
       print_line (error_text "Execution timeout")
         (disarm (set_alarm 0 (compile_state src w)))) /\
  log (snd (run_process P w))
    = EvWrite Runner (error_text "Execution timeout" +:+ newline) :: EvAlarm 0
        :: EvCompile src :: prelude_log ++ log w.
Proof.
  intros Hd Hl Ho.
  assert (stop P src w
          = (TimeoutError "Execution timeout", set_alarm 0 (compile_state src w))) as Hs
    by (unfold stop; rewrite Hl, Ho; reflexivity).
  assert (run_process P w
          = (Exited 0,
             print_line (error_text "Execution timeout")
               (disarm (set_alarm 0 (compile_state src w))))) as Hr
    by (rewrite run_process_spec, Hd, Hs; reflexivity).
  split; [rewrite try_body_stop, Hs; reflexivity|].
  split; [rewrite execute_tool_code_stop, Hs; reflexivity|].
  split; [exact Hr|]. rewrite Hr. reflexivity.
Qed.

(** The request of the submission [hello] on a platform where the
    compilation outlasts the alarm. *)
Lemma X6_witness :
  let w := Examples.fresh (Examples.request_text (Examples.sub_blob Examples.hello) None) in
  fst (run_process Examples.slow_platform w) = Exited 0 /\
  stdout (snd (run_process Examples.slow_platform w))
    = error_text "Execution timeout" +:+ newline /\
  alarm (snd (run_process Examples.slow_platform w)) = 0.
Proof.
  intros w.
  destruct (X6_deadline_during_compilation Examples.slow_platform w _ _
              eq_refl eq_refl eq_refl) as (_ & _ & Hr & _).
  rewrite Hr. split; [reflexivity|]. split; reflexivity.
Defined.

(** ** The names of the capability set *)






(** ** A limit that is refused *)

(** X8.  The two limits are set one after the other and nothing is undone.
    When the memory ceiling is refused, the CPU ceiling is not attempted and
    both limits stay as they were; when the memory ceiling is accepted and
    the CPU ceiling refused, the process ends with the memory ceiling in
    force and the CPU limit as it was.  In both cases the handler of SIGALRM
    is not installed and the status is 0. *)
Theorem X8_refused_limit_leaves_the_other (P : Platform) w src params :
  decode_request P (stdin w) = Ok (src, params) ->
  (forall e,
      os_setrlimit P (rlimits w) RLIMIT_AS (268435456, 268435456) = Some e ->
      fst (run_process P w) = Exited 0 /\
      rlimits (snd (run_process P w)) = rlimits w /\
      on_sigalrm (snd (run_process P w)) = on_sigalrm w /\
      exists line,
        log (snd (run_process P w))
        = [EvWrite Runner line; EvAlarm 0; EvSetrlimit RLIMIT_AS 268435456 268435456]
            ++ log w) /\
  (forall e,
      os_setrlimit P (rlimits w) RLIMIT_AS (268435456, 268435456) = None ->
      os_setrlimit P (rlimits (limited_as w)) RLIMIT_CPU (60, 60) = Some e ->
      fst (run_process P w) = Exited 0 /\
      rlimits (snd (run_process P w)) RLIMIT_AS = Some (268435456, 268435456) /\
      rlimits (snd (run_process P w)) RLIMIT_CPU = rlimits w RLIMIT_CPU /\
      on_sigalrm (snd (run_process P w)) = on_sigalrm w).
Proof.
  intros Hd.
  assert (forall e w0, limiter_failure P w = Some (e, w0) ->
                       exists text,
                         run_process P w = (Exited 0, print_line text (disarm w0)))
    as Hrun.
  { intros e w0 Hl.
    destruct (run_process_decoded P w src params Hd) as (msg & _ & _ & Hr).
    exists (error_text msg). rewrite Hr. unfold stop. rewrite Hl. reflexivity. }
  split.
  - intros e Has.
    destruct (Hrun e (add_log (EvSetrlimit RLIMIT_AS MEMORY_LIMIT MEMORY_LIMIT) w))
      as [text Hr].
    { unfold limiter_failure. change (MEMORY_LIMIT, MEMORY_LIMIT)
        with (268435456, 268435456). rewrite Has. reflexivity. }
    rewrite Hr. split; [reflexivity|]. split; [reflexivity|]. split; [reflexivity|].
    eexists. reflexivity.
  - intros e Has Hcpu.
    destruct (Hrun e (add_log (EvSetrlimit RLIMIT_CPU 60 60) (limited_as w)))
      as [text Hr].
    { unfold limiter_failure. change (MEMORY_LIMIT, MEMORY_LIMIT)
        with (268435456, 268435456). rewrite Has, Hcpu. reflexivity. }
    rewrite Hr. repeat split; reflexivity.
Qed.

(** The submission [hello] on a platform that accepts the memory ceiling
    and refuses the CPU ceiling. *)
Lemma X8_witness :
  let P := Examples.example_platform Examples.cpu_refused in
  let w := Examples.fresh (Examples.request_text (Examples.sub_blob Examples.hello) None) in
  fst (run_process P w) = Exited 0 /\
  rlimits (snd (run_process P w)) RLIMIT_AS = Some (268435456, 268435456) /\
  rlimits (snd (run_process P w)) RLIMIT_CPU = None /\
  on_sigalrm (snd (run_process P w)) = SIG_DFL.
Proof.
  intros P w.
  exact (proj2 (X8_refused_limit_leaves_the_other P w _ _ eq_refl)
           (ValueError "not allowed to raise maximum limit") eq_refl eq_refl).
Defined.

(** ** A request without source *)

(** X11.  A request that is valid JSON and holds no source is answered
    before anything else is done: for an object without the member [code]
    the line printed is the envelope "Runner error: 'code'"; for a JSON
    value that is not an object it is an envelope "Runner error: ...".  In
    both cases the status is 1 and the process did nothing but print that
    line: no limit set, no handler installed, no alarm armed, nothing
    compiled. *)
Theorem X11_request_without_code (P : Platform) (w : process) :
  (forall items,
      json_loads P (stdin w) = Ok (PyDict items) ->
      assoc_get "code" items = None ->
      run_process P w
        = (Exited 1, print_line (error_text "Runner error: 'code'") w)) /\
  (forall v,
      json_loads P (stdin w) = Ok v ->
      (forall items, v <> PyDict items) ->
      exists msg,
        run_process P w
          = (Exited 1, print_line (error_text ("Runner error: " +:+ msg)) w)).
Proof.
  split.
  - intros items Hj Hc. rewrite run_process_spec. unfold decode_request.
    rewrite Hj. cbn [subscript]. rewrite Hc. reflexivity.
  - intros v Hj Hnd. rewrite run_process_spec. unfold decode_request. rewrite Hj.
    destruct v as [ |b|n|s|xs|xs|items|xs|t]; cbn [subscript];
      try (eexists; reflexivity).
    destruct (Hnd items eq_refl).
Qed.

(** The request [{}] and the request [[]]. *)
Lemma X11_witness :
  let P := Examples.example_platform Examples.limits_accepted in
  run_process P (Examples.fresh "{}")
    = (Exited 1, print_line (error_text "Runner error: 'code'") (Examples.fresh "{}")) /\
  exists msg,
    run_process P (Examples.fresh "[]")
      = (Exited 1,
         print_line (error_text ("Runner error: " +:+ msg)) (Examples.fresh "[]")).
Proof.
  intros P. split.
  - exact (proj1 (X11_request_without_code P (Examples.fresh "{}")) [] eq_refl eq_refl).
  - apply (proj2 (X11_request_without_code P (Examples.fresh "[]")) (PyList []) eq_refl).
    intros items H. discriminate H.
Defined.

(** ** What the reply depends on *)

(** X14.  The reply of [execute_tool_code] does not depend on the
    parameters; and once the limits are accepted it does not depend on the
    source either, as long as the restricted compiler answers: two sources
    for which it answers before the deadline get the same envelope. *)
Theorem X14_reply_ignores_parameters_and_source (P : Platform) (w : process) :
  (forall src params params',
      execute_tool_code P src params w = execute_tool_code P src params' w) /\
  (forall src src' params params' r r',
      compile_outlasts_alarm P src = false ->
      compile_outlasts_alarm P src' = false ->
      compile_restricted_exec P src = Ok r ->
      compile_restricted_exec P src' = Ok r' ->
      fst (execute_tool_code P src params w)
      = fst (execute_tool_code P src' params' w)).
Proof.
  split.
  - intros src params params'. rewrite !execute_tool_code_stop. reflexivity.
  - intros src src' params params' r r' Ho Ho' Hc Hc'.
    rewrite !execute_tool_code_stop. unfold stop.
    destruct (limiter_failure P w) as [[e w0]|]; [reflexivity|].
    rewrite Ho, Ho', Hc, Hc'. reflexivity.
Qed.

(** The sources of the submissions [hello] and [no_tools], the first with
    the parameter [x], the second without parameters. *)
Lemma X14_witness :
  let P := Examples.example_platform Examples.limits_accepted in
  fst (execute_tool_code P (Examples.sub_source Examples.hello)
         (PyDict [(PyStr "x", PyInt 5)]) (Examples.fresh EmptyString))
  = fst (execute_tool_code P (Examples.sub_source Examples.no_tools)
           PyNone (Examples.fresh EmptyString)).
Proof.
  intros P.
  exact (proj2 (X14_reply_ignores_parameters_and_source P (Examples.fresh EmptyString))
           _ _ _ _ _ _ eq_refl eq_refl eq_refl eq_refl).
Defined.

(** ** The envelopes that are never returned *)

(** X15.  [execute_tool_code] returns no envelope with [ok] true and never
    the envelope "Code compilation failed (restricted)": the test of line 80
    is never true, and no path reaches line 102.  Every envelope it returns
    is the one of an exception -- the refusal of a limit, the timeout, an
    exception of the compiler or the [TypeError] of [exec] -- and [Tools]
    and [run] are called on no path. *)
Theorem X15_no_result_and_no_rejection (P : Platform) src params w :
  exists e w1 before,
    execute_tool_code P src params w = (Returned (handled e), w1) /\
    dict_get "ok" (handled e) = Some (PyBool false) /\
    dict_get "result" (handled e) = None /\
    handled e <> envelope_error "Code compilation failed (restricted)" /\
    log w1 = before ++ log w /\
    ~ In EvInstantiate before /\ ~ In EvRun before.
Proof.
  destruct (stop_log P src w) as (_ & _ & Hlog).
  assert (exists before,
             log (disarm (snd (stop P src w))) = before ++ log w /\
             ~ In EvInstantiate before /\ ~ In EvRun before) as (before & Hb & Hi & Hr).
  { destruct Hlog as [H|[H|[H|H]]];
      [ exists [EvAlarm 0; EvSetrlimit RLIMIT_AS 268435456 268435456]
      | exists [EvAlarm 0; EvSetrlimit RLIMIT_CPU 60 60;
                EvSetrlimit RLIMIT_AS 268435456 268435456]
      | exists (EvAlarm 0 :: EvCompile src :: prelude_log)
      | exists (EvAlarm 0 :: EvExec :: EvCompile src :: prelude_log) ];
      (split; [simpl; rewrite H; reflexivity|]);
      split; intros Hin; simpl in Hin;
      repeat (destruct Hin as [Hin|Hin]; [discriminate Hin|]); exact Hin. }
  exists (fst (stop P src w)), (disarm (snd (stop P src w))), before.
  split; [apply execute_tool_code_stop|].
  destruct (fst (stop P src w)) as [m|m|cls m];
    (split; [reflexivity|]); (split; [reflexivity|]);
    (split; [intros H; vm_compute in H; discriminate H|]); auto.
Qed.
